(** * FontGet: the Font Squirrel translator

    A shallow embedding of [scripts/font-squirrel-translator.py] and the
    properties of its extract-transform-load pipeline.

    Conventions of the embedding:
    - a decoded JSON value is a [json]; Python's [dict] is a [gmap string json];
    - Python's [str] is the [string] of the bytes of its UTF-8 encoding: [len]
      counts code points, and substring tests and replacements of ASCII text
      are the same on the bytes as on the characters;
    - a Python call that may raise is a [result]; [try]/[except] is a match on
      it;
    - what the script takes from the Python runtime and does not define itself
      is the interface [PyRuntime]: [datetime.fromisoformat],
      [datetime.isoformat], [str()] of a value that is not a string,
      [str.lower()] of a string that is not ASCII, and the [print] that shows
      data of a record;
    - the other calls of [print] show fixed ASCII text, counters and messages
      of exceptions, and are left out, as is [time.sleep]. *)

From Stdlib Require Import ZArith String Ascii PrimFloat Lia.
From stdpp Require Import gmap strings list fin_maps.

Local Open Scope string_scope.
Local Open Scope Z_scope.
Local Open Scope list_scope.

#[local] Set Warnings "-clear-no-such-hyp".

(** ** JSON values, as [json.loads] / [response.json()] returns them *)

#[warnings="-register-all"]
Inductive json : Type :=
  | JNull
  | JBool (b : bool)
  | JInt (n : Z)
  | JFloat (x : float)
  | JStr (s : string)
  | JList (l : list json)
  | JDict (d : gmap string json).

(** Python's truth value of a decoded JSON value ([if v:]). *)
Definition truthy (v : json) : bool :=
  match v with
  | JNull => false
  | JBool b => b
  | JInt n => negb (Z.eqb n 0)
  | JFloat x => negb (PrimFloat.eqb x 0%float)
  | JStr s => negb (String.eqb s "")
  | JList l => negb (Nat.eqb (length l) 0)
  | JDict d => negb (Nat.eqb (size d) 0)
  end.

(** ** Exceptions *)

Inductive exn : Set :=
  | AttributeError | TypeError | KeyError | ValueError | UnicodeEncodeError.

Inductive result (A : Type) : Type :=
  | Ok (a : A)
  | Raise (e : exn).
Arguments Ok {A} a.
Arguments Raise {A} e.

#[global] Instance result_ret : MRet result := @Ok.
#[global] Instance result_bind : MBind result := fun A B f m =>
  match m with
  | Ok a => f a
  | Raise e => Raise e
  end.

(** ** What the script takes from the Python runtime *)

Class PyRuntime : Type := {
  (** the values of [datetime.datetime] *)
  datetime : Type;
  (** [datetime.fromisoformat(s)]; [None] stands for its [ValueError] *)
  fromisoformat : string -> option datetime;
  (** [dt.isoformat()] *)
  isoformat : datetime -> string;
  (** [str(v)] for a value that is not a string *)
  str_of : json -> string;
  (** [s.lower()] for a string [s] with a character outside ASCII *)
  unicode_lower : string -> string;
  (** the [print] in the handler of [transform_font], which shows the family
      name of the record and the exception: it raises when [sys.stdout]
      cannot take the text ([UnicodeEncodeError] under an encoding that lacks
      a character of the name) *)
  print_warning : json -> exn -> result unit;
}.

(** ** The output data model *)

Module Variant.
Record t : Type := mk {
  name : json;
  weight : Z;
  style : string;
  subsets : list string;
  files : gmap string json;
}.
End Variant.

Module FontEntry.
Record t : Type := mk {
  name : json;
  family : json;
  license : json;
  license_url : json;
  designer : json;
  foundry : json;
  version : json;
  description : json;
  categories : list json;
  tags : list string;
  popularity : Z;
  last_modified : json;
  metadata_url : string;
  source_url : string;
  variants : list Variant.t;
  unicode_ranges : list string;
  languages : list string;
  sample_text : string;
}.
End FontEntry.

Module SourceInfo.
Record t : Type := mk {
  name : string;
  description : string;
  url : string;
  api_endpoint : string;
  version : string;
  last_updated : string;
  total_fonts : Z;
}.
End SourceInfo.

Module SourceDocument.
Record t : Type := mk {
  source_info : SourceInfo.t;
  fonts : gmap string FontEntry.t;
}.
End SourceDocument.

Section Translator.
Context {py : PyRuntime}.

(** ** The string methods the script uses *)

Definition lower_ascii (c : ascii) : ascii :=
  let n := nat_of_ascii c in
  if (Nat.leb 65 n && Nat.leb n 90)%bool then ascii_of_nat (n + 32) else c.

(** A byte below 128, that is an ASCII character. *)
Definition is_ascii_char (c : ascii) : bool :=
  match c with
  | Ascii _ _ _ _ _ _ _ b7 => negb b7
  end.

Fixpoint is_ascii (s : string) : bool :=
  match s with
  | EmptyString => true
  | String c t => is_ascii_char c && is_ascii t
  end.

(** [s.lower()] of an ASCII string: the letters A to Z become a to z. *)
Fixpoint ascii_lower (s : string) : string :=
  match s with
  | EmptyString => EmptyString
  | String c t => String (lower_ascii c) (ascii_lower t)
  end.

(** [s.lower()] *)
Definition lower (s : string) : string :=
  if is_ascii s then ascii_lower s else unicode_lower s.

(** A byte that continues a character in UTF-8 (the bits 10xxxxxx). *)
Definition is_continuation (c : ascii) : bool :=
  match c with
  | Ascii _ _ _ _ _ _ b6 b7 => b7 && negb b6
  end.

(** The number of characters of a string: the bytes that start one. *)
Fixpoint code_points (s : string) : nat :=
  match s with
  | EmptyString => O
  | String c t =>
      if is_continuation c then code_points t else S (code_points t)
  end.

(** [s.replace(old, new)] for a pattern [old] of one character, which is the
    only way the script calls it. *)
Fixpoint replace (old : ascii) (new : string) (s : string) : string :=
  match s with
  | EmptyString => EmptyString
  | String c t =>
      if Ascii.eqb c old then new +:+ replace old new t
      else String c (replace old new t)
  end.

(** [sub in s] *)
Fixpoint contains (sub s : string) : bool :=
  String.prefix sub s ||
  match s with
  | EmptyString => false
  | String _ t => contains sub t
  end.

(** ** Methods called on a value whose type the script does not check *)

(** [v.get(key, default)]: only a dict has the method. *)
Definition get (v : json) (key : string) (dflt : json) : result json :=
  match v with
  | JDict d => Ok (default dflt (d !! key))
  | _ => Raise AttributeError
  end.

(** [v.get(key)], whose default is [None]. *)
Definition get1 (v : json) (key : string) : result json := get v key JNull.

(** [v[key]] *)
Definition getitem (v : json) (key : string) : result json :=
  match v with
  | JDict d =>
      match d !! key with
      | Some x => Ok x
      | None => Raise KeyError
      end
  | _ => Raise TypeError
  end.

(** [v.lower()]: only a str has the method. *)
Definition str_lower (v : json) : result string :=
  match v with
  | JStr s => Ok (lower s)
  | _ => Raise AttributeError
  end.

(** [len(v)] *)
Definition len (v : json) : result Z :=
  match v with
  | JStr s => Ok (Z.of_nat (code_points s))
  | JList l => Ok (Z.of_nat (length l))
  | JDict d => Ok (Z.of_nat (size d))
  | _ => Raise TypeError
  end.

(** ** [_parse_weight] and [_parse_style] *)

Definition _parse_weight (variant_name : json) : result Z :=
  variant_lower ← str_lower variant_name;
  if contains "thin" variant_lower || contains "hairline" variant_lower then
    Ok 100
  else if contains "extra-light" variant_lower
          || contains "ultra-light" variant_lower then
    Ok 200
  else if contains "light" variant_lower then
    Ok 300
  else if contains "regular" variant_lower
          || contains "normal" variant_lower then
    Ok 400
  else if contains "medium" variant_lower then
    Ok 500
  else if contains "semi-bold" variant_lower
          || contains "demi-bold" variant_lower then
    Ok 600
  else if contains "bold" variant_lower then
    Ok 700
  else if contains "extra-bold" variant_lower
          || contains "ultra-bold" variant_lower then
    Ok 800
  else if contains "black" variant_lower || contains "heavy" variant_lower then
    Ok 900
  else
    Ok 400.

Definition _parse_style (variant_name : json) : result string :=
  variant_lower ← str_lower variant_name;
  if contains "italic" variant_lower || contains "oblique" variant_lower then
    Ok "italic"
  else
    Ok "normal".

(** ** [_calculate_popularity] *)

Definition _calculate_popularity (font_data : json) : result Z :=
  let score := 50 in
  is_free ← get font_data "is_free" (JBool false);
  let score := if truthy is_free then score + 20 else score in
  description ← get1 font_data "description";
  has_description ←
    (if truthy description then Ok true
     else short ← get1 font_data "short_description"; Ok (truthy short));
  let score := if has_description : bool then score + 10 else score in
  designer ← get1 font_data "designer";
  let score := if truthy designer then score + 10 else score in
  foundry ← get1 font_data "foundry";
  let score := if truthy foundry then score + 5 else score in
  font_files ← get font_data "font_files" (JList []);
  n ← len font_files;
  let score := if Z.ltb 1 n then score + Z.min (n * 2) 15 else score in
  Ok (Z.min score 100).

(** ** [_extract_unicode_ranges] and [_extract_languages] *)

Definition _extract_unicode_ranges (font_data : json) : result (list string) :=
  classification ← get font_data "classification" (JDict ∅);
  name ← get classification "name" (JStr "");
  classification_name ← str_lower name;
  let ranges := ["U+0000-00FF"] in
  if contains "latin" classification_name
     || contains "sans" classification_name
     || contains "serif" classification_name
  then Ok (ranges ++ ["U+0100-017F"])
  else Ok ranges.

Definition _extract_languages (font_data : json) : result (list string) :=
  classification ← get font_data "classification" (JDict ∅);
  name ← get classification "name" (JStr "");
  classification_name ← str_lower name;
  let languages := ["Latin"] in
  if contains "latin" classification_name
     || contains "sans" classification_name
     || contains "serif" classification_name
  then Ok (languages ++ ["Latin Extended"])
  else Ok languages.

(** ** [_extract_variants] *)

(** [for x in v]: the elements the loop visits.  A dict yields its keys and
    a str its characters, taken byte by byte here: each is a str, on which
    the loop of [_extract_variants] raises at once. *)
Definition iterate (v : json) : result (list json) :=
  match v with
  | JList l => Ok l
  | JStr s => Ok ((fun c => JStr (String c "")) <$> list_ascii_of_string s)
  | JDict d => Ok ((fun kv => JStr kv.1) <$> map_to_list d)
  | _ => Raise TypeError
  end.

(** The table [variant_patterns]. *)
Definition variant_patterns : list (string * Z * string) :=
  [ ("Regular", 400, "normal");
    ("Bold", 700, "normal");
    ("Italic", 400, "italic");
    ("Bold Italic", 700, "italic");
    ("Light", 300, "normal");
    ("Medium", 500, "normal");
    ("Semi Bold", 600, "normal");
    ("Extra Bold", 800, "normal");
    ("Black", 900, "normal") ].

(** The loop over the listed font files, [variants] being the list built so
    far. *)
Fixpoint variants_of_files (font_files : list json)
    (variants : list Variant.t) : result (list Variant.t) :=
  match font_files with
  | [] => Ok variants
  | file_info :: rest =>
      variant_name ← get file_info "name" (JStr "Regular");
      weight ← _parse_weight variant_name;
      style ← _parse_style variant_name;
      let files : gmap string json := ∅ in
      ttf ← get1 file_info "ttf_url";
      files ←
        (if truthy ttf then u ← getitem file_info "ttf_url"; Ok (<["ttf" := u]> files)
         else Ok files);
      otf ← get1 file_info "otf_url";
      files ←
        (if truthy otf then u ← getitem file_info "otf_url"; Ok (<["otf" := u]> files)
         else Ok files);
      if negb (Nat.eqb (size files) 0) then
        variants_of_files rest
          (variants ++ [Variant.mk variant_name weight style ["latin"] files])
      else
        variants_of_files rest variants
  end.

(** A replacement field [{v}] of an f-string. *)
Definition format (v : json) : string :=
  match v with
  | JStr s => s
  | _ => str_of v
  end.

(** The loop over [variant_patterns]. *)
Fixpoint variants_of_patterns (font_data family_name : json)
    (patterns : list (string * Z * string))
    (variants : list Variant.t) : result (list Variant.t) :=
  match patterns with
  | [] => Ok variants
  | (variant_name, weight, style) :: rest =>
      family_lower ← str_lower family_name;
      family_urlname ←
        get font_data "family_urlname" (JStr (replace " " "-" family_lower));
      let variant_urlname := replace " " "-" (lower variant_name) in
      let ttf_url :=
        "https://www.fontsquirrel.com/fonts/download/"
          +:+ format family_urlname +:+ "/" +:+ variant_urlname in
      let files : gmap string json := <["ttf" := JStr ttf_url]> ∅ in
      variants_of_patterns font_data family_name rest
        (variants ++
           [Variant.mk (JStr (format family_name +:+ " " +:+ variant_name))
              weight style ["latin"] files])
  end.

Definition _extract_variants (font_data : json) : result (list Variant.t) :=
  font_files ← get font_data "font_files" (JList []);
  variants ←
    (if truthy font_files then
       l ← iterate font_files; variants_of_files l []
     else
       family_name ← get font_data "family_name" (JStr "");
       variants_of_patterns font_data family_name variant_patterns []);
  Ok (take 5 variants).

(** ** [transform_font] *)

(** The f-string that builds the key of a font, written twice in the script
    (in [transform_font] and in [translate]). *)
Definition font_id (family_name : json) : result string :=
  family_lower ← str_lower family_name;
  Ok ("squirrel." +:+ replace "_" "-" (replace " " "-" family_lower)).

(** The body of the inner [try] on [updated_at]. *)
Definition reformat_timestamp (last_modified : json) : result string :=
  match last_modified with
  | JStr s =>
      match fromisoformat (replace "Z" "+00:00" s) with
      | Some dt => Ok (isoformat dt +:+ "Z")
      | None => Raise ValueError
      end
  | _ => Raise AttributeError
  end.

(** [a == s] for a string literal [s]. *)
Definition eq_str (a : json) (s : string) : bool :=
  match a with
  | JStr t => String.eqb t s
  | _ => false
  end.

(** The body of the outer [try]. *)
Definition transform_body (font_data : json) : result (option FontEntry.t) :=
  family_name ← get font_data "family_name" (JStr "");
  if negb (truthy family_name) then Ok None else
  _ ← font_id family_name;
  license_info ← get font_data "license" (JDict ∅);
  license_type ← get license_info "name" (JStr "Unknown");
  license_url ← get license_info "url" (JStr "");
  designer ← get font_data "designer" (JStr "");
  foundry ← get font_data "foundry" (JStr "");
  classification ← get font_data "classification" (JDict ∅);
  category ← get classification "name" (JStr "Other");
  let tags : list string := [] in
  classification_name ← get1 classification "name";
  tags ←
    (if truthy classification_name then
       name ← getitem classification "name";
       name_lower ← str_lower name;
       Ok (tags ++ [replace " " "-" name_lower])
     else Ok tags);
  is_free ← get font_data "is_free" (JBool false);
  let tags := if truthy is_free then tags ++ ["free"] else tags ++ ["commercial"] in
  description ← get font_data "description" (JStr "");
  description ←
    (if negb (truthy description) then
       short ← get1 font_data "short_description";
       if truthy short then getitem font_data "short_description"
       else Ok description
     else Ok description);
  version ← get font_data "version" (JStr "1.0");
  last_modified ← get font_data "updated_at" (JStr "");
  let last_modified :=
    if truthy last_modified then
      match reformat_timestamp last_modified with
      | Ok s => JStr s
      | Raise _ => JStr ""
      end
    else last_modified in
  family_lower ← str_lower family_name;
  family_urlname ←
    get font_data "family_urlname" (JStr (replace " " "-" family_lower));
  let source_url :=
    "https://www.fontsquirrel.com/fonts/" +:+ format family_urlname in
  variants ← _extract_variants font_data;
  popularity ← _calculate_popularity font_data;
  let categories := if eq_str category "Other" then [] else [category] in
  let metadata_url :=
    "https://www.fontsquirrel.com/api/familyinfo/" +:+ format family_urlname in
  unicode_ranges ← _extract_unicode_ranges font_data;
  languages ← _extract_languages font_data;
  Ok (Some {|
    FontEntry.name := family_name;
    FontEntry.family := family_name;
    FontEntry.license := license_type;
    FontEntry.license_url := license_url;
    FontEntry.designer := designer;
    FontEntry.foundry := foundry;
    FontEntry.version := version;
    FontEntry.description := description;
    FontEntry.categories := categories;
    FontEntry.tags := tags;
    FontEntry.popularity := popularity;
    FontEntry.last_modified := last_modified;
    FontEntry.metadata_url := metadata_url;
    FontEntry.source_url := source_url;
    FontEntry.variants := variants;
    FontEntry.unicode_ranges := unicode_ranges;
    FontEntry.languages := languages;
    FontEntry.sample_text := "The quick brown fox jumps over the lazy dog";
  |}).

(** [transform_font]: the handler of the outer [try] prints a warning that
    shows [font_data.get('family_name', 'unknown')] and the exception, and
    returns [None]. *)
Definition transform_font (font_data : json) : result (option FontEntry.t) :=
  match transform_body font_data with
  | Ok r => Ok r
  | Raise e =>
      family_name ← get font_data "family_name" (JStr "unknown");
      _ ← print_warning family_name e;
      Ok None
  end.

(** ** [fetch_fonts] and [translate] *)

(** What [session.get] followed by [raise_for_status] and [response.json()]
    comes to: the decoded list, or a [RequestException]. *)
Inductive response : Type :=
  | Fetched (fonts : list json)
  | RequestException.

Definition fetch_fonts (r : response) : list json :=
  match r with
  | Fetched fonts => fonts
  | RequestException => []
  end.

(** The local variables of the loop of [translate]. *)
Record loop_state : Type := mk_state {
  fonts : gmap string FontEntry.t;
  processed : Z;
  skipped : Z;
}.

(** One iteration of [for font_data in raw_fonts].  An exception inside the
    [try] leaves [fonts] and [processed] as they were and counts the record
    as skipped. *)
Definition translate_step (st : loop_state) (font_data : json) : loop_state :=
  let attempt :=
    transformed ← transform_font font_data;
    match transformed with
    | Some entry =>
        family_name ← getitem font_data "family_name";
        key ← font_id family_name;
        Ok (mk_state (<[key := entry]> (fonts st)) (processed st + 1) (skipped st))
    | None => Ok (mk_state (fonts st) (processed st) (skipped st + 1))
    end in
  match attempt with
  | Ok st' => st'
  | Raise _ => mk_state (fonts st) (processed st) (skipped st + 1)
  end.

Definition translate_loop (raw_fonts : list json) : loop_state :=
  foldl translate_step (mk_state ∅ 0 0) raw_fonts.

Definition header (now : datetime) (total : Z) : SourceInfo.t :=
  {| SourceInfo.name := "Font Squirrel";
     SourceInfo.description := "Free and commercial fonts from Font Squirrel";
     SourceInfo.url := "https://www.fontsquirrel.com";
     SourceInfo.api_endpoint := "https://www.fontsquirrel.com/api/fontlist/all";
     SourceInfo.version := "1.0";
     SourceInfo.last_updated := isoformat now +:+ "Z";
     SourceInfo.total_fonts := total |}.

Definition _create_empty_source (now : datetime) : SourceDocument.t :=
  {| SourceDocument.source_info := header now 0;
     SourceDocument.fonts := ∅ |}.

(** [translate], given the outcome of the request and the reading [now] of
    [datetime.utcnow()]. *)
Definition translate (r : response) (now : datetime) : SourceDocument.t :=
  let raw_fonts := fetch_fonts r in
  match raw_fonts with
  | [] => _create_empty_source now
  | _ =>
      let st := translate_loop raw_fonts in
      {| SourceDocument.source_info := header now (Z.of_nat (size (fonts st)));
         SourceDocument.fonts := fonts st |}
  end.

(** ** [main] *)

Definition output_file : string := "sources/font-squirrel.json".

(** [main], given in addition whether [os.makedirs], [open] and [json.dump]
    go through ([written]) or one of them raises.  The result is the exit
    code and, when the write goes through, the path and the document
    written. *)
Definition main (r : response) (now : datetime) (written : bool)
    : Z * option (string * SourceDocument.t) :=
  let source_data := translate r now in
  if written then (0, Some (output_file, source_data)) else (1, None).

(** ** What the loop of [translate] does with a record *)

(** The key under which [translate] files a record. *)
Definition key_of (font_data : json) : result string :=
  getitem font_data "family_name" ≫= font_id.

(** The key and the entry that one iteration of the loop of [translate]
    inserts, if it inserts one. *)
Definition keyed (font_data : json) : option (string * FontEntry.t) :=
  match transform_font font_data with
  | Ok (Some entry) =>
      match key_of font_data with
      | Ok key => Some (key, entry)
      | Raise _ => None
      end
  | _ => None
  end.

(** The entries of the records that [transform_font] transforms, in order:
    their number is the number of successful transforms. *)
Definition successes (raw_fonts : list json) : list FontEntry.t :=
  omap (fun font_data =>
          match transform_font font_data with
          | Ok (Some entry) => Some entry
          | _ => None
          end) raw_fonts.

(** [fonts[key] = entry] for each pair of [l], in order. *)
Definition insert_all (m : gmap string FontEntry.t)
    (l : list (string * FontEntry.t)) : gmap string FontEntry.t :=
  foldl (fun m p => <[p.1 := p.2]> m) m l.

(** ** Predicates of the statements *)

(** A byte that is no letter A to Z, no space and no underscore.  On an
    ASCII name, [plain] says that it has no upper-case letter, no space and
    no underscore; it says nothing of the letters outside ASCII. *)
Definition plain_char (c : ascii) : bool :=
  let n := nat_of_ascii c in
  negb (Nat.leb 65 n && Nat.leb n 90)
  && negb (Ascii.eqb c " ") && negb (Ascii.eqb c "_").

Fixpoint plain (s : string) : bool :=
  match s with
  | EmptyString => true
  | String c t => plain_char c && plain t
  end.

(** What [font_id] puts after the source tag. *)
Definition normal_form (family_name : string) : string :=
  replace "_" "-" (replace " " "-" (lower family_name)).

(** The same for an ASCII name, whose [lower] is [ascii_lower]. *)
Definition ascii_normal_form (family_name : string) : string :=
  replace "_" "-" (replace " " "-" (ascii_lower family_name)).

Definition ends_with (suffix s : string) : Prop := exists p, s = p +:+ suffix.

(** A file entry the loop can process: an object whose [name], when given,
    is a string. *)
Definition file_entry_ok (file_info : json) : Prop :=
  exists fd : gmap string json,
    file_info = JDict fd /\
    (fd !! "name" = None \/ exists s, fd !! "name" = Some (JStr s)).

(** Whether a classification name makes [_extract_unicode_ranges] and
    [_extract_languages] add the extended range. *)
Definition extended (classification : gmap string json) : bool :=
  match default (JStr "") (classification !! "name") with
  | JStr n =>
      contains "latin" (lower n) || contains "sans" (lower n)
      || contains "serif" (lower n)
  | _ => false
  end.

(** The values on which [_extract_unicode_ranges] and [_extract_languages]
    return: an object whose classification, [c], is absent (then [c] is
    empty) or an object whose [name] is absent or a string. *)
Definition classified (font_data : json) (c : gmap string json) : Prop :=
  exists d : gmap string json,
    font_data = JDict d /\
    default (JDict ∅) (d !! "classification") = JDict c /\
    (c !! "name" = None \/ exists n, c !! "name" = Some (JStr n)).

(** A file entry with a URL: [ttf_url] or [otf_url] is true. *)
Definition has_url (file_info : json) : bool :=
  match file_info with
  | JDict fd =>
      truthy (default JNull (fd !! "ttf_url"))
      || truthy (default JNull (fd !! "otf_url"))
  | _ => false
  end.

(** [file_info.get("name", "Regular")] of an object. *)
Definition file_name (file_info : json) : json :=
  match file_info with
  | JDict fd => default (JStr "Regular") (fd !! "name")
  | _ => JNull
  end.

(** The dict [files] that the loop builds for a file entry. *)
Definition files_of (file_info : json) : gmap string json :=
  match file_info with
  | JDict fd =>
      let ttf := default JNull (fd !! "ttf_url") in
      let otf := default JNull (fd !! "otf_url") in
      let files : gmap string json :=
        if truthy ttf then <["ttf" := ttf]> ∅ else ∅ in
      if truthy otf then <["otf" := otf]> files else files
  | _ => ∅
  end.

(** The values of [font_files] on which both [_extract_variants] and
    [_calculate_popularity] return: none, a list of entries the loop can
    process, or an empty string or object. *)
Definition font_files_ok (d : gmap string json) : Prop :=
  match d !! "font_files" with
  | None => True
  | Some (JList l) => Forall file_entry_ok l
  | Some (JStr s) => s = ""
  | Some (JDict m) => m = ∅
  | Some _ => False
  end.

(** The records that [transform_font] keeps. *)
Definition record_ok (d : gmap string json) : Prop :=
  (exists s, d !! "family_name" = Some (JStr s) /\ s <> "") /\
  (d !! "license" = None \/ exists m, d !! "license" = Some (JDict m)) /\
  (d !! "classification" = None \/
   exists c, d !! "classification" = Some (JDict c) /\
             (c !! "name" = None \/ exists n, c !! "name" = Some (JStr n))) /\
  font_files_ok d.

(** What every variant of an output satisfies. *)
Definition variant_ok (v : Variant.t) : Prop :=
  100 <= Variant.weight v <= 900 /\
  Variant.weight v mod 100 = 0 /\
  (Variant.style v = "normal" \/ Variant.style v = "italic") /\
  Variant.subsets v = ["latin"] /\
  Variant.files v <> ∅ /\
  dom (Variant.files v) ⊆ ({["ttf"; "otf"]} : gset string).

End Translator.

(** ** An instance of the runtime, for evaluating examples *)

Definition is_digit (c : ascii) : bool :=
  let n := nat_of_ascii c in (Nat.leb 48 n && Nat.leb n 57)%bool.

(** Whether [s] has the shape of [pat], in which [d] stands for a digit. *)
Fixpoint has_shape (pat s : string) : bool :=
  match pat, s with
  | EmptyString, EmptyString => true
  | String p pat', String c s' =>
      (if Ascii.eqb p "d" then is_digit c else Ascii.eqb p c) && has_shape pat' s'
  | _, _ => false
  end.

(** This instance is no model of the runtime: it serves to evaluate the
    functions at the sample records below, all ASCII, and agrees with Python
    there.  Timestamps to the second, with or without an offset, are kept as
    their text: on these [isoformat] gives back what [fromisoformat] read
    (the ranges of the fields are not checked).  [str] is given on [None]
    and the booleans, [lower] lowers the ASCII letters, and [print] takes
    every text; the sample records reach neither of the first two, and the
    warnings they print are ASCII text. *)
Definition sample_runtime : PyRuntime := {|
  datetime := string;
  fromisoformat s :=
    if has_shape "dddd-dd-ddTdd:dd:dd" s
       || has_shape "dddd-dd-ddTdd:dd:dd+dd:dd" s
    then Some s else None;
  isoformat dt := dt;
  str_of v :=
    match v with
    | JNull => "None"
    | JBool true => "True"
    | JBool false => "False"
    | _ => "<object>"
    end;
  unicode_lower s := ascii_lower s;
  print_warning _ _ := Ok tt;
|}.

(** ** Sample records *)

Definition sample_now : @datetime sample_runtime :=
  ("2024-05-01T12:00:00" : string).

Definition all_bonuses : gmap string json :=
  {[ "is_free" := JBool true;
     "short_description" := JStr "A text face";
     "designer" := JStr "Jane";
     "foundry" := JStr "Acme";
     "font_files" := JList [JDict ∅; JDict ∅; JDict ∅] ]}.

(** A record that lists 20 files. *)
Definition twenty_files : gmap string json :=
  {[ "family_name" := JStr "Twenty";
     "font_files" :=
       JList (replicate 20
                (JDict {[ "name" := JStr "Bold Italic";
                          "ttf_url" := JStr "https://example.org/b.ttf" ]})) ]}.

Definition test_font : json :=
  JDict {[ "family_name" := JStr "Test Font";
           "is_free" := JBool true;
           "designer" := JStr "Jane" ]}.

Definition open_sans : json := JDict {[ "family_name" := JStr "Open Sans" ]}.

Definition open_sans_lower : json :=
  JDict {[ "family_name" := JStr "open sans"; "is_free" := JBool true ]}.

Definition no_family_name : gmap string json :=
  {[ "designer" := JStr "Jane"; "is_free" := JBool true ]}.

Definition null_updated_at : gmap string json :=
  {[ "family_name" := JStr "Open Sans"; "updated_at" := JNull ]}.

(** A record whose [license] is a string, not an object. *)
Definition string_license : gmap string json :=
  {[ "family_name" := JStr "Open Sans"; "license" := JStr "OFL" ]}.

(** A record with most fields, and three file entries of which the second
    has no URL. *)
Definition rich_record : gmap string json :=
  {[ "family_name" := JStr "Open Sans";
     "family_urlname" := JStr "open-sans";
     "classification" := JDict {[ "name" := JStr "Sans Serif" ]};
     "license" := JDict {[ "name" := JStr "Apache License" ]};
     "short_description" := JStr "A humanist face";
     "is_free" := JBool true;
     "font_files" :=
       JList [ JDict {[ "name" := JStr "Bold Italic";
                        "ttf_url" := JStr "https://example.org/bi.ttf" ]};
               JDict {[ "name" := JStr "Light" ]};
               JDict {[ "otf_url" := JStr "https://example.org/r.otf" ]} ] ]}.


(** ** Tactics *)

(** Closes a goal with the hypothesis [H] that a raising body, or its
    handler, returned an entry. *)
Ltac raised H :=
  first [ discriminate H
        | match type of H with
          | mbind _ ?m = _ => destruct m; discriminate H
          end ].

(** One step through the body of [transform_font]: a case analysis on the
    computation at its head.  A branch that raises ends in the handler, which
    returns no entry whether its [print] goes through or raises. *)
Ltac step_body :=
  match goal with
  | |- match (if ?b then _ else _) with _ => _ end = _ -> _ => destruct b
  | |- match (mbind _ ?m) with _ => _ end = _ -> _ =>
      destruct m eqn:?; cbn [mbind result_bind]
  end;
  try (let H := fresh in intros H; raised H).

(** For a goal [exists x, t = Ok (Some x) /\ _] on a closed [t]: evaluates
    [t], names the equation [He] and leaves the second part. *)
Ltac evaluated_entry entry He :=
  match goal with
  | |- exists _, ?t = Ok (Some _) /\ _ =>
      destruct t as [[entry|]|] eqn:He;
      [|vm_compute in He; discriminate He..];
      exists entry; split; [reflexivity|]
  end.

(** * Properties *)

(** ** Sequencing *)

Lemma bind_Ok {A B : Type} (m : result A) (f : A -> result B) (b : B) :
  m ≫= f = Ok b -> exists a, m = Ok a /\ f a = Ok b.
Proof. destruct m as [a|e]; [by exists a | discriminate]. Qed.

(** ** Substrings *)

Lemma append_cons (c : ascii) (a b : string) :
  String c a +:+ b = String c (a +:+ b).
Proof. reflexivity. Qed.

Lemma append_assoc (a b c : string) : (a +:+ b) +:+ c = a +:+ b +:+ c.
Proof.
  induction a as [|x a IH]; [reflexivity|].
  rewrite !append_cons. by f_equal.
Qed.

Lemma prefix_spec (a s : string) :
  String.prefix a s = true <-> exists q, s = a +:+ q.
Proof.
  revert s. induction a as [|c a IH]; intros s.
  - split; [intros _; by exists s | by destruct s].
  - destruct s as [|c' s]; simpl.
    + split; [done | intros [q Hq]; discriminate].
    + destruct (ascii_dec c c') as [->|Hne].
      * rewrite IH. split; intros [q Hq]; exists q.
        -- rewrite append_cons. by f_equal.
        -- rewrite append_cons in Hq. by injection Hq.
      * split; [done | intros [q Hq]].
        rewrite append_cons in Hq. injection Hq as Hc _. congruence.
Qed.

Lemma contains_spec (sub s : string) :
  contains sub s = true <-> exists p q, s = p +:+ sub +:+ q.
Proof.
  induction s as [|c s IH]; cbn [contains].
  - rewrite orb_false_r, prefix_spec. split.
    + intros [q Hq]. exists "", q. exact Hq.
    + intros ([|? ?] & q & Hq); [exists q; exact Hq | discriminate].
  - rewrite orb_true_iff, IH, prefix_spec. split.
    + intros [[q Hq] | (p & q & Hq)].
      * exists "", q. exact Hq.
      * exists (String c p), q. rewrite append_cons. by f_equal.
    + intros ([|c' p] & q & Hq).
      * left. exists q. exact Hq.
      * right. rewrite append_cons in Hq. injection Hq as _ Hq.
        exists p, q. exact Hq.
Qed.

(** A string that contains [a +:+ b] contains [b]. *)
Lemma contains_suffix (a b s : string) :
  contains (a +:+ b) s = true -> contains b s = true.
Proof.
  rewrite !contains_spec. intros (p & q & ->).
  exists (p +:+ a), q. by rewrite !append_assoc.
Qed.

(** ** The weight and style parser *)

Section Parsers.
Context {py : PyRuntime}.

(** C1 (the code at the claim's inputs): on "Extra Bold Italic" the parser
    returns weight 700, not 800, and style "italic"; on "Regular" it returns
    400 and "normal"; on "Funky" it returns 400.  The hyphenated
    "Extra-Bold" gets 700 as well: the test for "bold" comes first. *)
Theorem parse_weight_style_examples :
  _parse_weight (JStr "Extra Bold Italic") = Ok 700 /\
  _parse_style (JStr "Extra Bold Italic") = Ok "italic" /\
  _parse_weight (JStr "Regular") = Ok 400 /\
  _parse_style (JStr "Regular") = Ok "normal" /\
  _parse_weight (JStr "Funky") = Ok 400 /\
  _parse_weight (JStr "Extra-Bold") = Ok 700 /\
  _parse_weight (JStr "Ultra-Bold") = Ok 700.
Proof. repeat split; reflexivity. Qed.

(** C9: whatever the variant name, [_parse_weight] does not return 800: a name
    that contains "extra-bold" or "ultra-bold" contains "bold", which is
    tested before them. *)
Theorem parse_weight_never_800 (variant_name : json) :
  _parse_weight variant_name <> Ok 800.
Proof.
  unfold _parse_weight. destruct variant_name; simpl; try discriminate.
  set (v := lower s).
  repeat match goal with
  | |- (if ?b then _ else _) <> _ => destruct b eqn:?; try discriminate
  end.
  exfalso.
  match goal with
  | Hb : contains "bold" v = false, Hx : (_ || _)%bool = true |- _ =>
      apply orb_true_iff in Hx as [Hx | Hx];
      [ apply (contains_suffix "extra-" "bold") in Hx
      | apply (contains_suffix "ultra-" "bold") in Hx ];
      congruence
  end.
Qed.

End Parsers.

(** ** The key of a font *)

Lemma ascii_normal_form_plain (a : string) :
  plain a = true -> ascii_normal_form a = a.
Proof.
  unfold ascii_normal_form. induction a as [|c a IH]; [done|].
  cbn [plain ascii_lower]. intros [Hc Ha]%andb_true_iff.
  unfold plain_char in Hc. apply andb_true_iff in Hc as [Hc Hu].
  apply andb_true_iff in Hc as [Hc Hs].
  unfold lower_ascii. apply negb_true_iff in Hc, Hs, Hu. rewrite Hc.
  cbn [replace]. rewrite Hs. cbn [replace]. rewrite Hu.
  f_equal. by apply IH.
Qed.

Section Keys.
Context {py : PyRuntime}.

Lemma font_id_str (a : string) :
  font_id (JStr a) = Ok ("squirrel." +:+ normal_form a).
Proof. reflexivity. Qed.

Lemma normal_form_ascii (a : string) :
  is_ascii a = true -> normal_form a = ascii_normal_form a.
Proof. intros Ha. unfold normal_form, ascii_normal_form, lower. by rewrite Ha. Qed.

Lemma normal_form_plain (a : string) :
  is_ascii a = true -> plain a = true -> normal_form a = a.
Proof.
  intros Ha Hp. rewrite normal_form_ascii by done.
  by apply ascii_normal_form_plain.
Qed.

(** C3 (amended): the key is a function of the family name alone, defined on
    every string; two names have the same key exactly when they have the same
    normal form (lower case, with spaces and underscores turned into
    hyphens), so that the derivation is injective on the names that are in
    normal form already, those that the normalisation leaves as they are;
    an ASCII name is one of them when it has no upper-case letter, no space
    and no underscore; "Open Sans" gives a key that ends in "open-sans" and
    "Foo_Bar" one that ends in "foo-bar". *)
Theorem font_id_injective_on_normal_forms (a b : string) :
  (exists key, font_id (JStr a) = Ok key /\ ends_with (normal_form a) key) /\
  (font_id (JStr a) = font_id (JStr b) <-> normal_form a = normal_form b) /\
  (normal_form a = a -> normal_form b = b -> a <> b ->
   font_id (JStr a) <> font_id (JStr b)) /\
  (is_ascii a = true -> plain a = true -> normal_form a = a) /\
  (exists key, font_id (JStr "Open Sans") = Ok key /\ ends_with "open-sans" key) /\
  (exists key, font_id (JStr "Foo_Bar") = Ok key /\ ends_with "foo-bar" key).
Proof.
  rewrite !font_id_str. repeat split.
  - eexists; split; [reflexivity | by exists "squirrel."].
  - intros [= H]. exact H.
  - by intros ->.
  - intros Ha Hb Hne [= H]. apply Hne. by rewrite <- Ha, <- Hb.
  - apply normal_form_plain.
  - eexists; split; [reflexivity | by exists "squirrel."].
  - eexists; split; [reflexivity | by exists "squirrel."].
Qed.

End Keys.

(** C3 (as stated, refuted): two distinct family names with the same key. *)
Lemma font_id_not_injective :
  ~ (forall a b : string,
       a <> b ->
       font_id (py := sample_runtime) (JStr a)
       <> font_id (py := sample_runtime) (JStr b)).
Proof.
  intros H. apply (H "Open Sans" "open_sans"); [discriminate | reflexivity].
Qed.

Lemma font_id_injective_on_normal_forms_witness :
  normal_form (py := sample_runtime) "open-sans" = "open-sans" /\
  normal_form (py := sample_runtime) "foo-bar" = "foo-bar" /\
  font_id (py := sample_runtime) (JStr "open-sans")
  <> font_id (py := sample_runtime) (JStr "foo-bar").
Proof.
  split; [reflexivity|]. split; [reflexivity|].
  apply (font_id_injective_on_normal_forms (py := sample_runtime)
           "open-sans" "foo-bar");
    [reflexivity | reflexivity | discriminate].
Defined.

(** ** The popularity score *)

(** C4 (as stated, refuted): a record that meets every bonus condition and
    lists two font files scores 99. *)
Lemma popularity_all_bonuses_99 :
  _calculate_popularity
    (JDict {[ "is_free" := JBool true;
              "description" := JStr "A text face";
              "designer" := JStr "Jane";
              "foundry" := JStr "Acme";
              "font_files" := JList [JDict ∅; JDict ∅] ]})
  = Ok 99.
Proof. vm_compute. reflexivity. Qed.

(** C4 (amended): a score is computed whenever [font_files] is absent or
    has a length [n]; it is then the base 50 plus the bonuses (20 for
    [is_free], 10 for a description or short description, 10 for a designer,
    5 for a foundry, [min (2 * n) 15] when [n > 1]) capped at 100, it lies in
    [0, 100], and a record that meets every bonus condition scores 100 when it
    lists at least three files and 99 when it lists two. *)
Theorem popularity_score (d : gmap string json) (n : Z) :
  len (default (JList []) (d !! "font_files")) = Ok n ->
  let is_free := truthy (default (JBool false) (d !! "is_free")) in
  let described :=
    truthy (default JNull (d !! "description"))
    || truthy (default JNull (d !! "short_description")) in
  let designer := truthy (default JNull (d !! "designer")) in
  let foundry := truthy (default JNull (d !! "foundry")) in
  let score :=
    Z.min (50 + (if is_free then 20 else 0)
              + (if described then 10 else 0)
              + (if designer then 10 else 0)
              + (if foundry then 5 else 0)
              + (if 1 <? n then Z.min (2 * n) 15 else 0)) 100 in
  _calculate_popularity (JDict d) = Ok score /\
  0 <= score <= 100 /\
  (is_free = true -> described = true -> designer = true -> foundry = true ->
   1 < n -> score = if n =? 2 then 99 else 100).
Proof.
  intros Hn. unfold _calculate_popularity. cbn [get get1 mbind result_bind].
  rewrite Hn. cbn [mbind result_bind].
  destruct (truthy (default (JBool false) (d !! "is_free")));
    destruct (truthy (default JNull (d !! "description")));
    destruct (truthy (default JNull (d !! "short_description")));
    destruct (truthy (default JNull (d !! "designer")));
    destruct (truthy (default JNull (d !! "foundry")));
    cbn [mbind result_bind orb];
    destruct (Z.ltb_spec 1 n); (split; [f_equal; lia|]);
    (split; [lia|]); intros; try discriminate; try lia;
    destruct (Z.eqb_spec n 2); lia.
Qed.

Lemma popularity_score_witness :
  len (default (JList []) (all_bonuses !! "font_files")) = Ok 3 /\
  _calculate_popularity (JDict all_bonuses) = Ok 100.
Proof.
  split; [reflexivity|].
  exact (proj1 (popularity_score all_bonuses 3 eq_refl)).
Defined.

(** No score is computed when [font_files] has no length. *)
Lemma popularity_raises (d : gmap string json) :
  len (default (JList []) (d !! "font_files")) = Raise TypeError ->
  _calculate_popularity (JDict d) = Raise TypeError.
Proof.
  intros Hn. unfold _calculate_popularity. cbn [get get1 mbind result_bind].
  rewrite Hn.
  by destruct (truthy (default JNull (d !! "description"))).
Qed.

(** ** The variant list *)

Section Parts.
Context {py : PyRuntime}.

Lemma parse_weight_str (s : string) : exists w, _parse_weight (JStr s) = Ok w.
Proof.
  unfold _parse_weight. cbn [str_lower mbind result_bind].
  repeat match goal with
  | |- exists w, (if ?b then _ else _) = _ => destruct b
  end; eauto.
Qed.

Lemma parse_style_str (s : string) : exists st, _parse_style (JStr s) = Ok st.
Proof.
  unfold _parse_style. cbn [str_lower mbind result_bind].
  match goal with |- exists w, (if ?b then _ else _) = _ => destruct b end; eauto.
Qed.

Lemma getitem_truthy (fd : gmap string json) (k : string) :
  truthy (default JNull (fd !! k)) = true ->
  getitem (JDict fd) k = Ok (default JNull (fd !! k)).
Proof. cbn [getitem]. by destruct (fd !! k). Qed.

Lemma variants_of_files_ok (l : list json) :
  Forall file_entry_ok l ->
  forall acc, exists vs, variants_of_files l acc = Ok vs.
Proof.
  induction 1 as [|file_info l (fd & -> & Hname) _ IH]; intros acc.
  - by exists acc.
  - cbn [variants_of_files get get1 mbind result_bind].
    assert (exists s, default (JStr "Regular") (fd !! "name") = JStr s) as [s ->].
    { destruct Hname as [-> | [s ->]]; eauto. }
    destruct (parse_weight_str s) as [w ->], (parse_style_str s) as [st ->].
    cbn [mbind result_bind].
    destruct (truthy (default JNull (fd !! "ttf_url"))) eqn:Httf;
      [rewrite (getitem_truthy _ _ Httf)|];
      (destruct (truthy (default JNull (fd !! "otf_url"))) eqn:Hotf;
       [rewrite (getitem_truthy _ _ Hotf)|]);
      cbn [mbind result_bind];
      match goal with |- context [if ?b then _ else _] => destruct b end;
      apply IH.
Qed.

(** The variants and the popularity of an entry are what the two helpers
    return on its record. *)
Lemma transform_font_parts (d : gmap string json) (entry : FontEntry.t) :
  transform_font (JDict d) = Ok (Some entry) ->
  _extract_variants (JDict d) = Ok (FontEntry.variants entry) /\
  _calculate_popularity (JDict d) = Ok (FontEntry.popularity entry).
Proof.
  unfold transform_font, transform_body.
  cbn [get get1 getitem mbind result_bind].
  do 13 step_body. intros [= <-]. by split.
Qed.

End Parts.

Section Variants.
Context {py : PyRuntime}.

(** C5: a variant list that [_extract_variants] returns has at most 5
    entries, from the listed files as from the table of patterns, and so has
    the variant list of every entry that [transform_font] produces; and
    [_extract_variants] does return one: for every non-empty list of
    well-formed file entries, and, with exactly 5 entries, whenever no file
    is listed and the family name is a string or absent. *)
Theorem extract_variants_at_most_five (d : gmap string json) :
  (forall vs, _extract_variants (JDict d) = Ok vs -> (length vs <= 5)%nat) /\
  (forall entry, transform_font (JDict d) = Ok (Some entry) ->
     (length (FontEntry.variants entry) <= 5)%nat) /\
  (forall f l, d !! "font_files" = Some (JList (f :: l)) ->
     Forall file_entry_ok (f :: l) ->
     exists vs, _extract_variants (JDict d) = Ok vs /\ (length vs <= 5)%nat) /\
  (truthy (default (JList []) (d !! "font_files")) = false ->
   (d !! "family_name" = None \/ exists s, d !! "family_name" = Some (JStr s)) ->
   exists vs, _extract_variants (JDict d) = Ok vs /\ length vs = 5%nat).
Proof.
  assert (Hle : forall vs, _extract_variants (JDict d) = Ok vs ->
                           (length vs <= 5)%nat).
  { unfold _extract_variants. cbn [get mbind result_bind]. intros vs.
    intros (l & _ & [= <-])%bind_Ok. rewrite length_take. lia. }
  split; [exact Hle|]. split; [|split].
  - intros entry [Hv _]%transform_font_parts. by apply Hle.
  - intros f l Hd Hok.
    destruct (variants_of_files_ok _ Hok []) as [vs Hvs].
    assert (_extract_variants (JDict d) = Ok (take 5 vs)) as H.
    { unfold _extract_variants. cbn [get mbind result_bind].
      rewrite Hd. cbn -[variants_of_files]. by rewrite Hvs. }
    eauto.
  - intros Hff Hfam.
    assert (exists s, default (JStr "") (d !! "family_name") = JStr s) as [s Hs].
    { destruct Hfam as [-> | [s ->]]; eauto. }
    unfold _extract_variants. cbn [get mbind result_bind].
    rewrite Hff, Hs. unfold variant_patterns.
    cbn [variants_of_patterns str_lower get mbind result_bind].
    eexists; split; [reflexivity | reflexivity].
Qed.

End Variants.

Lemma extract_variants_at_most_five_witness :
  exists vs,
    _extract_variants (py := sample_runtime) (JDict twenty_files) = Ok vs /\
    (length vs <= 5)%nat.
Proof.
  destruct (extract_variants_at_most_five (py := sample_runtime) twenty_files)
    as (Hle & _).
  eexists. split; [vm_compute; reflexivity|].
  apply Hle. vm_compute. reflexivity.
Defined.

(** ** Records that [transform_font] keeps *)

Section Transform.
Context {py : PyRuntime}.

(** A record is kept only if it is an object whose [family_name] is a
    string that is not empty. *)
Lemma transform_font_Some (font_data : json) (entry : FontEntry.t) :
  transform_font font_data = Ok (Some entry) ->
  exists (d : gmap string json) (s : string),
    font_data = JDict d /\ d !! "family_name" = Some (JStr s) /\ s <> "".
Proof.
  unfold transform_font.
  destruct (transform_body font_data) as [r|x] eqn:E.
  2: { intros (fam & _ & (u & _ & H)%bind_Ok)%bind_Ok. discriminate H. }
  intros [= ->]. unfold transform_body in E.
  apply bind_Ok in E as (family_name & Hget & E).
  destruct font_data as [| | | | |l|d]; try discriminate Hget.
  injection Hget as <-.
  destruct (truthy (default (JStr "") (d !! "family_name"))) eqn:Ht;
    cbn [negb] in E; [|discriminate E].
  apply bind_Ok in E as (key & Hkey & _).
  destruct (d !! "family_name") as [v|] eqn:Hd; [|discriminate Ht].
  destruct v; try discriminate Hkey.
  exists d, s. split; [done|]. split; [done|]. intros ->. discriminate Ht.
Qed.

Lemma keyed_Some (font_data : json) (key : string) (entry : FontEntry.t) :
  keyed font_data = Some (key, entry) <->
  exists (d : gmap string json) (s : string),
    font_data = JDict d /\ d !! "family_name" = Some (JStr s) /\ s <> "" /\
    transform_font font_data = Ok (Some entry) /\
    font_id (JStr s) = Ok key.
Proof.
  unfold keyed, key_of. split.
  - destruct (transform_font font_data) as [[e|]|] eqn:E; try discriminate.
    destruct (transform_font_Some _ _ E) as (d & s & -> & Hs & Hne).
    cbn [getitem]. rewrite Hs. cbn [mbind result_bind].
    rewrite font_id_str. intros [= <- <-]. exists d, s. by rewrite font_id_str.
  - intros (d & s & -> & Hs & _ & -> & Hk).
    cbn [getitem]. rewrite Hs. cbn [mbind result_bind]. by rewrite Hk.
Qed.

Lemma translate_step_keyed (st : loop_state) (font_data : json) :
  translate_step st font_data =
  match keyed font_data with
  | Some (key, entry) =>
      mk_state (<[key := entry]> (fonts st)) (processed st + 1) (skipped st)
  | None => mk_state (fonts st) (processed st) (skipped st + 1)
  end.
Proof.
  unfold translate_step, keyed, key_of.
  destruct (transform_font font_data) as [[entry|]|]; cbn; try done.
  destruct (getitem font_data "family_name") as [v|]; cbn; [|done].
  by destruct (font_id v).
Qed.

Lemma translate_loop_from (raw_fonts : list json) (st : loop_state) :
  let kept := omap keyed raw_fonts in
  let st' := foldl translate_step st raw_fonts in
  fonts st' = insert_all (fonts st) kept /\
  processed st' = processed st + Z.of_nat (length kept) /\
  skipped st' =
    skipped st + Z.of_nat (length raw_fonts) - Z.of_nat (length kept).
Proof.
  revert st. induction raw_fonts as [|fd raw IH]; intros st; cbn zeta.
  - cbn. repeat split; lia.
  - cbn [foldl omap list_omap]. specialize (IH (translate_step st fd)).
    cbn zeta in IH. destruct IH as (Hf & Hp & Hs).
    rewrite Hf, Hp, Hs, translate_step_keyed.
    destruct (keyed fd) as [[key entry]|]; cbn; repeat split; lia.
Qed.

Lemma insert_all_lookup (l : list (string * FontEntry.t))
    (m : gmap string FontEntry.t) (key : string) (entry : FontEntry.t) :
  insert_all m l !! key = Some entry ->
  (key, entry) ∈ l \/ m !! key = Some entry.
Proof.
  revert m. induction l as [|[k e] l IH]; intros m; cbn; [by right|].
  intros [Hin | Hm]%IH; [left; by right|].
  destruct (decide (k = key)) as [->|Hne].
  - rewrite lookup_insert_eq in Hm. injection Hm as ->. left. by left.
  - rewrite lookup_insert_ne in Hm by done. by right.
Qed.

(** The last insertion under a key is the one that stays. *)
Lemma insert_all_last (l1 l2 : list (string * FontEntry.t))
    (m : gmap string FontEntry.t) (key : string) (entry : FontEntry.t) :
  (forall e, (key, e) ∉ l2) ->
  insert_all m (l1 ++ (key, entry) :: l2) !! key = Some entry.
Proof.
  intros Hl2. unfold insert_all. rewrite foldl_app. cbn [foldl fst snd].
  generalize (foldl (fun m p => <[p.1 := p.2]> m) m l1). intros m'.
  assert (<[key := entry]> m' !! key = Some entry) as H
    by apply lookup_insert_eq.
  revert H. generalize (<[key := entry]> m'). clear m'.
  induction l2 as [|[k e] l2 IH]; intros m' Hm'; cbn; [done|].
  apply IH.
  - intros e' Hin. apply (Hl2 e'). by right.
  - rewrite lookup_insert_ne; [done|]. intros ->. apply (Hl2 e). by left.
Qed.

Lemma insert_all_dom (l : list (string * FontEntry.t))
    (m : gmap string FontEntry.t) :
  dom (insert_all m l) = dom m ∪ list_to_set l.*1.
Proof.
  revert m. induction l as [|[k e] l IH]; intros m; cbn.
  - set_solver.
  - rewrite IH, dom_insert_L. set_solver.
Qed.

End Transform.

(** ** Counting keys *)

Lemma size_list_to_set_le (l : list string) :
  (size (list_to_set l : gset string) <= length l)%nat.
Proof.
  induction l as [|k l IH]; cbn [list_to_set foldr length].
  - by rewrite size_empty.
  - destruct (decide (k ∈ (list_to_set l : gset string))) as [Hin|Hnin].
    + replace ({[k]} ∪ list_to_set l) with (list_to_set l : gset string)
        by set_solver.
      lia.
    + rewrite size_union by set_solver. rewrite size_singleton. lia.
Qed.

Lemma size_list_to_set_NoDup (l : list string) :
  size (list_to_set l : gset string) = length l <-> NoDup l.
Proof.
  split; [|apply size_list_to_set].
  induction l as [|k l IH]; cbn [list_to_set foldr length]; [constructor|].
  intros Hsize.
  destruct (decide (k ∈ (list_to_set l : gset string))) as [Hin|Hnin].
  - replace ({[k]} ∪ list_to_set l) with (list_to_set l : gset string) in Hsize
      by set_solver.
    pose proof (size_list_to_set_le l). lia.
  - rewrite size_union in Hsize by set_solver.
    rewrite size_singleton in Hsize.
    constructor; [set_solver | apply IH; lia].
Qed.

Section Pipeline.
Context {py : PyRuntime}.

Lemma successes_keyed (raw_fonts : list json) :
  (omap keyed raw_fonts).*2 = successes raw_fonts.
Proof.
  unfold successes.
  induction raw_fonts as [|fd raw IH]; [done|]. cbn [omap list_omap].
  destruct (keyed fd) as [[key entry]|] eqn:Hk.
  - apply keyed_Some in Hk as (d & s & _ & _ & _ & -> & _).
    cbn. by f_equal.
  - destruct (transform_font fd) as [[entry|]|] eqn:Ht; try done.
    destruct (transform_font_Some _ _ Ht) as (d & s & -> & Hs & Hne).
    assert (keyed (JDict d) = Some ("squirrel." +:+ normal_form s, entry)) as H.
    { apply keyed_Some. exists d, s. by rewrite font_id_str. }
    congruence.
Qed.

Lemma translate_fonts (raw_fonts : list json) (now : datetime) :
  SourceDocument.fonts (translate (Fetched raw_fonts) now)
  = insert_all ∅ (omap keyed raw_fonts).
Proof.
  unfold translate, translate_loop. cbn [fetch_fonts].
  destruct raw_fonts as [|fd raw]; [done|].
  cbn [SourceDocument.fonts].
  by destruct (translate_loop_from (fd :: raw) (mk_state ∅ 0 0)) as (-> & _).
Qed.

Lemma translate_total_fonts (raw_fonts : list json) (now : datetime) :
  SourceInfo.total_fonts
    (SourceDocument.source_info (translate (Fetched raw_fonts) now))
  = Z.of_nat (size (SourceDocument.fonts (translate (Fetched raw_fonts) now))).
Proof.
  unfold translate. cbn [fetch_fonts]. by destruct raw_fonts.
Qed.

Lemma translate_dom (raw_fonts : list json) (now : datetime) :
  dom (SourceDocument.fonts (translate (Fetched raw_fonts) now))
  = list_to_set (omap keyed raw_fonts).*1.
Proof. rewrite translate_fonts, insert_all_dom. set_solver. Qed.

Lemma length_successes (raw_fonts : list json) :
  length (successes raw_fonts) = length (omap keyed raw_fonts).*1.
Proof. by rewrite <- successes_keyed, !length_fmap. Qed.

Lemma total_fonts_keys (raw_fonts : list json) (now : datetime) :
  let doc := translate (Fetched raw_fonts) now in
  let total := SourceInfo.total_fonts (SourceDocument.source_info doc) in
  let keys := (omap keyed raw_fonts).*1 in
  total <= Z.of_nat (length (successes raw_fonts)) /\
  (total = Z.of_nat (length (successes raw_fonts)) <-> NoDup keys).
Proof.
  intros doc total keys. subst doc total keys.
  rewrite translate_total_fonts, length_successes.
  rewrite <- (size_dom (SourceDocument.fonts _)), translate_dom.
  split; [apply inj_le, size_list_to_set_le|].
  rewrite <- size_list_to_set_NoDup. lia.
Qed.

Lemma keyed_iff (font_data : json) (key : string) (entry : FontEntry.t) :
  keyed font_data = Some (key, entry) <->
  transform_font font_data = Ok (Some entry) /\ key_of font_data = Ok key.
Proof.
  unfold keyed. split.
  - destruct (transform_font font_data) as [[e|]|]; try done.
    destruct (key_of font_data); [|done]. by intros [= -> ->].
  - by intros [-> ->].
Qed.

Lemma processed_counts (raw_fonts : list json) :
  processed (translate_loop raw_fonts)
  = Z.of_nat (length (successes raw_fonts)).
Proof.
  unfold translate_loop.
  destruct (translate_loop_from raw_fonts (mk_state ∅ 0 0)) as (_ & -> & _).
  cbn [processed]. rewrite length_successes, length_fmap. lia.
Qed.

(** C2 (amended): [total_fonts] is the number of entries of the output
    mapping, that is the number of distinct keys among the records that were
    transformed; it is at most the number of transformed records and equal to
    it exactly when their keys are pairwise distinct. *)
Theorem total_fonts_counts_keys (raw_fonts : list json) (now : datetime) :
  raw_fonts <> [] ->
  let doc := translate (Fetched raw_fonts) now in
  let total := SourceInfo.total_fonts (SourceDocument.source_info doc) in
  let keys := (omap keyed raw_fonts).*1 in
  total = Z.of_nat (size (SourceDocument.fonts doc)) /\
  dom (SourceDocument.fonts doc) = list_to_set keys /\
  length keys = length (successes raw_fonts) /\
  total <= Z.of_nat (length (successes raw_fonts)) /\
  (total = Z.of_nat (length (successes raw_fonts)) <-> NoDup keys).
Proof.
  intros _ doc total keys. subst doc total keys.
  split; [apply translate_total_fonts|].
  split; [apply translate_dom|].
  split; [by rewrite length_successes|].
  apply total_fonts_keys.
Qed.

(** C10: when a record is transformed and no later record that is
    transformed has its key, the output mapping holds the entry of that
    record under the key, whatever came before; the counter [processed]
    counts every transformed record; so [total_fonts] is at most [processed],
    and strictly less as soon as an earlier record was transformed under the
    same key. *)
Theorem duplicate_keys_last_wins (raw1 raw2 : list json) (font_data : json)
    (key : string) (entry : FontEntry.t) (now : datetime) :
  transform_font font_data = Ok (Some entry) ->
  key_of font_data = Ok key ->
  (forall fd e, fd ∈ raw2 -> transform_font fd = Ok (Some e) ->
                key_of fd <> Ok key) ->
  let raw_fonts := raw1 ++ font_data :: raw2 in
  let doc := translate (Fetched raw_fonts) now in
  let total := SourceInfo.total_fonts (SourceDocument.source_info doc) in
  SourceDocument.fonts doc !! key = Some entry /\
  processed (translate_loop raw_fonts)
    = Z.of_nat (length (successes raw_fonts)) /\
  total <= processed (translate_loop raw_fonts) /\
  ((exists fd e, fd ∈ raw1 /\ transform_font fd = Ok (Some e) /\
                 key_of fd = Ok key) ->
   total < processed (translate_loop raw_fonts)).
Proof.
  intros Ht Hk Hlater raw_fonts doc total. subst doc total.
  assert (keyed font_data = Some (key, entry)) as Hkeyed by by apply keyed_iff.
  assert (omap keyed raw_fonts
          = omap keyed raw1 ++ (key, entry) :: omap keyed raw2) as Hkept.
  { subst raw_fonts. rewrite omap_app. cbn [omap list_omap]. by rewrite Hkeyed. }
  rewrite processed_counts.
  destruct (total_fonts_keys raw_fonts now) as [Hle Heq].
  split; [|split; [done|split; [done|]]].
  - rewrite translate_fonts, Hkept. apply insert_all_last.
    intros e (fd & Hfd & [Hfd1 Hfd2]%keyed_iff)%list_elem_of_omap.
    by apply (Hlater fd e).
  - intros (fd & e & Hfd & Hfdt & Hfdk).
    assert (~ NoDup (omap keyed raw_fonts).*1) as Hdup.
    { rewrite Hkept, fmap_app, fmap_cons. cbn [fst].
      intros Hnd. apply NoDup_app in Hnd as (_ & Hdisj & _).
      apply (Hdisj key); [|by left].
      apply list_elem_of_fmap. exists (key, e). split; [done|].
      apply list_elem_of_omap. exists fd. split; [done|]. by apply keyed_iff. }
    destruct (decide (SourceInfo.total_fonts
                        (SourceDocument.source_info
                           (translate (Fetched raw_fonts) now))
                      = Z.of_nat (length (successes raw_fonts)))) as [E|E].
    + by apply Heq in E.
    + lia.
Qed.

(** C7: a record without a [family_name], or with an empty one (the empty
    string or any other false value), is not transformed: [transform_font] returns [None], the loop of [translate]
    leaves the mapping as it is, and every entry of an output document comes
    from a record whose [family_name] is a string that is not empty. *)
Theorem no_family_name_no_entry (d : gmap string json) :
  d !! "family_name" = None \/
  (exists v, d !! "family_name" = Some v /\ truthy v = false) ->
  transform_font (JDict d) = Ok None /\
  (forall st, fonts (translate_step st (JDict d)) = fonts st /\
              processed (translate_step st (JDict d)) = processed st) /\
  (forall raw_fonts now key entry,
     SourceDocument.fonts (translate (Fetched raw_fonts) now) !! key
       = Some entry ->
     exists (d' : gmap string json) (s : string),
       JDict d' ∈ raw_fonts /\ d' !! "family_name" = Some (JStr s) /\
       s <> "" /\ transform_font (JDict d') = Ok (Some entry)).
Proof.
  intros Hd.
  assert (transform_font (JDict d) = Ok None) as Ht.
  { unfold transform_font, transform_body. cbn [get mbind result_bind].
    by destruct Hd as [-> | (v & -> & Hv)]; cbn [default from_option id];
      [|rewrite Hv]. }
  split; [exact Ht|]. split.
  - intros st. rewrite translate_step_keyed. unfold keyed. by rewrite Ht.
  - intros raw_fonts now key entry. rewrite translate_fonts.
    intros [Hin | Hempty]%insert_all_lookup;
      [|by rewrite lookup_empty in Hempty].
    apply list_elem_of_omap in Hin as (fd & Hfd & Hk).
    apply keyed_Some in Hk as (d' & s & -> & Hs & Hne & Hd' & _).
    by exists d', s.
Qed.

End Pipeline.

(** ** The field [last_modified] *)

Section LastModified.
Context {py : PyRuntime}.







End LastModified.

(** ** End to end *)

(** C6: for the single record [test_font] the output document has exactly one
    entry; its key ends in "test-font", its tags contain "free", it has 5
    variants, each with the subsets ["latin"], and its popularity is 80. *)
Theorem end_to_end_test_font {py : PyRuntime} (now : datetime) :
  let doc := translate (Fetched [test_font]) now in
  size (SourceDocument.fonts doc) = 1%nat /\
  SourceInfo.total_fonts (SourceDocument.source_info doc) = 1 /\
  exists key entry,
    SourceDocument.fonts doc !! key = Some entry /\
    ends_with "test-font" key /\
    "free" ∈ FontEntry.tags entry /\
    length (FontEntry.variants entry) = 5%nat /\
    Forall (fun v => Variant.subsets v = ["latin"]) (FontEntry.variants entry) /\
    FontEntry.popularity entry = 80.
Proof.
  cbn zeta. split; [vm_compute; reflexivity|]. split; [vm_compute; reflexivity|].
  destruct (SourceDocument.fonts (translate (Fetched [test_font]) now)
              !! "squirrel.test-font") as [entry|] eqn:He;
    [|vm_compute in He; discriminate He].
  exists "squirrel.test-font", entry. split; [done|].
  split; [by exists "squirrel."|].
  vm_compute in He. injection He as <-.
  split; [by left|]. split; [reflexivity|].
  split; [by repeat constructor | reflexivity].
Qed.

(** ** The properties at concrete records *)

(** C2 (as stated, refuted): two records are transformed, and [total_fonts]
    is 1. *)
Lemma total_fonts_not_success_count :
  let raw_fonts := [open_sans; open_sans_lower] in
  length (successes (py := sample_runtime) raw_fonts) = 2%nat /\
  SourceInfo.total_fonts
    (SourceDocument.source_info
       (translate (py := sample_runtime) (Fetched raw_fonts) sample_now)) = 1.
Proof. split; vm_compute; reflexivity. Qed.

Lemma total_fonts_counts_keys_witness :
  let raw_fonts := [open_sans; test_font] in
  raw_fonts <> [] /\
  SourceInfo.total_fonts
    (SourceDocument.source_info
       (translate (py := sample_runtime) (Fetched raw_fonts) sample_now))
  = Z.of_nat (length (successes (py := sample_runtime) raw_fonts)).
Proof.
  cbn zeta. split; [discriminate|].
  destruct (total_fonts_counts_keys (py := sample_runtime)
              [open_sans; test_font] sample_now ltac:(discriminate))
    as (_ & _ & _ & _ & Heq).
  apply Heq. vm_compute. repeat constructor; set_solver.
Defined.

Lemma no_family_name_no_entry_witness :
  no_family_name !! "family_name" = None /\
  transform_font (py := sample_runtime) (JDict no_family_name) = Ok None.
Proof.
  split; [reflexivity|].
  apply (no_family_name_no_entry (py := sample_runtime) no_family_name).
  left. reflexivity.
Defined.



Lemma duplicate_keys_last_wins_witness :
  let raw_fonts := [open_sans; open_sans_lower] in
  SourceInfo.total_fonts
    (SourceDocument.source_info
       (translate (py := sample_runtime) (Fetched raw_fonts) sample_now))
  < processed (translate_loop (py := sample_runtime) raw_fonts).
Proof.
  cbn zeta.
  destruct (transform_font (py := sample_runtime) open_sans_lower)
    as [[entry|]|] eqn:He; [|vm_compute in He; discriminate He..].
  destruct (transform_font (py := sample_runtime) open_sans)
    as [[first|]|] eqn:Hf; [|vm_compute in Hf; discriminate Hf..].
  apply (duplicate_keys_last_wins (py := sample_runtime)
           [open_sans] [] open_sans_lower "squirrel.open-sans" entry
           sample_now He).
  - reflexivity.
  - intros fd e Hin. by apply elem_of_nil in Hin.
  - exists open_sans, first. split; [by left|]. split; [exact Hf | reflexivity].
Defined.

(** * Further properties of the translator *)

(** ** What a kept record becomes *)

Section Entries.
Context {py : PyRuntime}.

(** The entry of a kept record, field by field. *)
Lemma transform_font_inv (d : gmap string json) (entry : FontEntry.t) :
  transform_font (JDict d) = Ok (Some entry) ->
  exists (s : string) (license_info classification : gmap string json)
         (variants : list Variant.t) (popularity : Z),
    d !! "family_name" = Some (JStr s) /\ s <> "" /\
    default (JDict ∅) (d !! "license") = JDict license_info /\
    default (JDict ∅) (d !! "classification") = JDict classification /\
    (classification !! "name" = None \/
     exists n, classification !! "name" = Some (JStr n)) /\
    _extract_variants (JDict d) = Ok variants /\
    _calculate_popularity (JDict d) = Ok popularity /\
    entry = {|
      FontEntry.name := JStr s;
      FontEntry.family := JStr s;
      FontEntry.license := default (JStr "Unknown") (license_info !! "name");
      FontEntry.license_url := default (JStr "") (license_info !! "url");
      FontEntry.designer := default (JStr "") (d !! "designer");
      FontEntry.foundry := default (JStr "") (d !! "foundry");
      FontEntry.version := default (JStr "1.0") (d !! "version");
      FontEntry.description :=
        (let description := default (JStr "") (d !! "description") in
         let short := default JNull (d !! "short_description") in
         if truthy description then description
         else if truthy short then short else description);
      FontEntry.categories :=
        match classification !! "name" with
        | Some (JStr n) => if String.eqb n "Other" then [] else [JStr n]
        | _ => []
        end;
      FontEntry.tags :=
        match classification !! "name" with
        | Some (JStr n) =>
            if String.eqb n "" then [] else [replace " " "-" (lower n)]
        | _ => []
        end ++
        [if truthy (default (JBool false) (d !! "is_free"))
         then "free" else "commercial"];
      FontEntry.popularity := popularity;
      FontEntry.last_modified :=
        (let updated_at := default (JStr "") (d !! "updated_at") in
         if truthy updated_at then
           match reformat_timestamp updated_at with
           | Ok t => JStr t
           | Raise _ => JStr ""
           end
         else updated_at);
      FontEntry.metadata_url :=
        "https://www.fontsquirrel.com/api/familyinfo/" +:+
        format (default (JStr (replace " " "-" (lower s)))
                  (d !! "family_urlname"));
      FontEntry.source_url :=
        "https://www.fontsquirrel.com/fonts/" +:+
        format (default (JStr (replace " " "-" (lower s)))
                  (d !! "family_urlname"));
      FontEntry.variants := variants;
      FontEntry.unicode_ranges :=
        if extended classification
        then ["U+0000-00FF"; "U+0100-017F"] else ["U+0000-00FF"];
      FontEntry.languages :=
        if extended classification
        then ["Latin"; "Latin Extended"] else ["Latin"];
      FontEntry.sample_text := "The quick brown fox jumps over the lazy dog";
    |}.
Proof.
  intros H. destruct (transform_font_Some _ _ H) as (d' & s & [= <-] & Hs & Hne).
  exists s. revert H.
  unfold transform_font, transform_body, _extract_unicode_ranges,
    _extract_languages, extended.
  cbn [get get1 getitem mbind result_bind]. rewrite Hs.
  cbn [default from_option id truthy font_id str_lower mbind result_bind].
  destruct (String.eqb_spec s "") as [|_]; [done|]. cbn [negb].
  destruct (default (JDict ∅) (d !! "license"))
    as [| | | | | |license_info] eqn:Hl;
    cbn [get mbind result_bind]; try (intros H; raised H).
  destruct (default (JDict ∅) (d !! "classification"))
    as [| | | | | |classification] eqn:Hc;
    cbn [get get1 getitem mbind result_bind]; try (intros H; raised H).
  destruct (truthy (default (JStr "") (d !! "description"))) eqn:Hdesc;
    cbn [negb];
    [|destruct (truthy (default JNull (d !! "short_description"))) eqn:Hshort;
      [destruct (d !! "short_description") as [short|] eqn:Hsd;
       [|discriminate Hshort]|]];
    (destruct (classification !! "name") as [[| | | |n| |]|] eqn:Hn;
     cbn [default from_option id truthy str_lower mbind result_bind negb];
     try (destruct (String.eqb_spec n "") as [->|Hnn]; cbn [negb]);
     cbn [default from_option id truthy str_lower mbind result_bind negb];
     repeat step_body).
  all: try (intros H; raised H).
  all: intros [= <-]; exists license_info, classification; eexists _, _.
  all: rewrite ?Hn; cbn [default from_option id eq_str app];
    try rewrite (proj2 (String.eqb_neq _ _) Hnn).
  all: repeat match goal with
       | H : (if ?b then _ else _) = Ok _ |- _ => destruct b
       | H : Ok _ = Ok _ |- _ => injection H as <-
       end.
  all: destruct (truthy (default (JBool false) (d !! "is_free")));
    repeat split; eauto; try reflexivity.
Qed.

(** The handler of [transform_font] on an object: when the body raises, the
    warning is printed and no entry is returned, unless the print itself
    raises; that exception then leaves [transform_font]. *)
Lemma transform_font_handler (d : gmap string json) :
  transform_font (JDict d) =
    match transform_body (JDict d) with
    | Ok r => Ok r
    | Raise e =>
        match print_warning (default (JStr "unknown") (d !! "family_name")) e
        with
        | Ok _ => Ok None
        | Raise e' => Raise e'
        end
    end.
Proof.
  unfold transform_font. destruct (transform_body (JDict d)); [done|].
  cbn [get mbind result_bind]. by destruct (print_warning _ _).
Qed.

End Entries.

(** ** The parsers *)

Section ParsersRange.
Context {py : PyRuntime}.

Lemma parse_weight_values (v : json) (w : Z) :
  _parse_weight v = Ok w -> w ∈ [100; 200; 300; 400; 500; 600; 700; 900].
Proof.
  unfold _parse_weight.
  destruct v; cbn [str_lower mbind result_bind]; try discriminate.
  set (l := lower s).
  repeat match goal with
  | |- (if ?b then _ else _) = _ -> _ => destruct b eqn:?
  end; intros [= <-]; try set_solver.
  exfalso.
  match goal with
  | Hb : contains "bold" l = false, Hx : (_ || _)%bool = true |- _ =>
      apply orb_true_iff in Hx as [Hx | Hx];
      [ apply (contains_suffix "extra-" "bold") in Hx
      | apply (contains_suffix "ultra-" "bold") in Hx ];
      congruence
  end.
Qed.

Lemma parse_style_values (v : json) (st : string) :
  _parse_style v = Ok st -> st = "italic" \/ st = "normal".
Proof.
  unfold _parse_style.
  destruct v; cbn [str_lower mbind result_bind]; try discriminate.
  match goal with |- (if ?b then _ else _) = _ -> _ => destruct b end;
    intros [= <-]; auto.
Qed.

Lemma parse_weight_Ok_str (v : json) (w : Z) :
  _parse_weight v = Ok w -> exists s, v = JStr s.
Proof. destruct v; try discriminate. eauto. Qed.

(** X1: the parsers raise [AttributeError] on every value that is not a
    string and return on every string; a returned weight is one of 100, 200,
    300, 400, 500, 600, 700 and 900, a returned style "italic" or "normal";
    and a name that contains "italic" or "oblique" in any letter case is
    italic. *)
Theorem parsers_range (v : json) :
  ((forall s, v <> JStr s) ->
   _parse_weight v = Raise AttributeError /\
   _parse_style v = Raise AttributeError) /\
  (forall s, v = JStr s ->
   exists w st,
     _parse_weight v = Ok w /\ _parse_style v = Ok st /\
     w ∈ [100; 200; 300; 400; 500; 600; 700; 900] /\
     (st = "italic" \/ st = "normal") /\
     (st = "italic" <->
      contains "italic" (lower s) = true \/ contains "oblique" (lower s) = true)).
Proof.
  split.
  - intros Hv. destruct v; try done. by destruct (Hv s).
  - intros s ->.
    destruct (parse_weight_str s) as [w Hw], (parse_style_str s) as [st Hst].
    exists w, st. split; [done|]. split; [done|].
    split; [by eapply parse_weight_values|].
    split; [by eapply parse_style_values|].
    revert Hst. unfold _parse_style. cbn [str_lower mbind result_bind].
    rewrite <- orb_true_iff.
    destruct (contains "italic" (lower s) || contains "oblique" (lower s));
      intros [= <-]; split; done.
Qed.

End ParsersRange.

Lemma parsers_range_witness :
  exists w st,
    _parse_weight (py := sample_runtime) (JStr "Semi-Bold Oblique") = Ok w /\
    _parse_style (py := sample_runtime) (JStr "Semi-Bold Oblique") = Ok st /\
    w ∈ [100; 200; 300; 400; 500; 600; 700; 900] /\ st = "italic".
Proof.
  destruct (parsers_range (py := sample_runtime) (JStr "Semi-Bold Oblique"))
    as [_ H].
  destruct (H "Semi-Bold Oblique" eq_refl) as (w & st & Hw & Hst & Hin & _ & Hit).
  exists w, st. split; [done|]. split; [done|]. split; [done|].
  apply Hit. right. reflexivity.
Defined.

(** ** The loop over the listed files *)

Section FileLoop.
Context {py : PyRuntime}.

Lemma size_insert_ne_0 (m : gmap string json) (k : string) (v : json) :
  Nat.eqb (size (<[k := v]> m)) 0 = false.
Proof.
  apply Nat.eqb_neq. intros H%map_size_empty_iff.
  by apply insert_non_empty in H.
Qed.

(** One iteration: the entry is an object whose name is a string, and its
    variant is appended when it has a URL. *)
Lemma variants_of_files_step (file_info : json) (rest : list json)
    (acc vs : list Variant.t) :
  variants_of_files (file_info :: rest) acc = Ok vs ->
  file_entry_ok file_info /\
  exists w st,
    _parse_weight (file_name file_info) = Ok w /\
    _parse_style (file_name file_info) = Ok st /\
    variants_of_files rest
      (if has_url file_info
       then acc ++ [Variant.mk (file_name file_info) w st ["latin"]
                      (files_of file_info)]
       else acc) = Ok vs.
Proof.
  cbn [variants_of_files].
  destruct file_info as [| | | | | |fd];
    cbn [get get1 getitem mbind result_bind]; try discriminate.
  unfold file_entry_ok, has_url, files_of, file_name.
  destruct (_parse_weight (default (JStr "Regular") (fd !! "name")))
    as [w|] eqn:Hw; cbn [mbind result_bind]; [|discriminate].
  destruct (_parse_style (default (JStr "Regular") (fd !! "name")))
    as [st|] eqn:Hst; cbn [mbind result_bind]; [|discriminate].
  intros H. split.
  - exists fd. split; [done|].
    destruct (parse_weight_Ok_str _ _ Hw) as [s Hs].
    destruct (fd !! "name") as [v|]; [right | by left].
    cbn in Hs. subst v. eauto.
  - exists w, st. split; [done|]. split; [done|]. revert H.
    destruct (fd !! "ttf_url") as [ttf|];
      destruct (fd !! "otf_url") as [otf|];
      cbn [default from_option id truthy];
      repeat match goal with
      | |- context [truthy ?x] => destruct (truthy x)
      end;
      cbn [mbind result_bind orb negb];
      rewrite ?size_insert_ne_0; cbn [negb]; done.
Qed.

Lemma variants_of_files_entries (l : list json) (acc vs : list Variant.t) :
  variants_of_files l acc = Ok vs -> Forall file_entry_ok l.
Proof.
  revert acc. induction l as [|file_info l IH]; intros acc H; [constructor|].
  apply variants_of_files_step in H as (Hok & w & st & _ & _ & H).
  constructor; [done | by eapply IH].
Qed.

Lemma variants_of_files_names (l : list json) (acc vs : list Variant.t) :
  variants_of_files l acc = Ok vs ->
  Variant.name <$> vs
  = (Variant.name <$> acc) ++ (file_name <$> List.filter has_url l).
Proof.
  revert acc. induction l as [|file_info l IH]; intros acc H.
  - injection H as <-. by rewrite app_nil_r.
  - apply variants_of_files_step in H as (_ & w & st & _ & _ & H).
    apply IH in H. rewrite H. cbn [List.filter].
    destruct (has_url file_info); [|done].
    by rewrite fmap_app, <- app_assoc.
Qed.

Lemma files_of_ok (file_info : json) :
  has_url file_info = true ->
  files_of file_info <> ∅ /\
  dom (files_of file_info) ⊆ ({["ttf"; "otf"]} : gset string).
Proof.
  unfold has_url, files_of. destruct file_info as [| | | | | |fd]; try done.
  destruct (truthy (default JNull (fd !! "ttf_url")));
    destruct (truthy (default JNull (fd !! "otf_url")));
    try done; intros _; (split; [apply insert_non_empty|]);
    rewrite ?dom_insert_L, ?dom_empty_L; set_solver.
Qed.

Lemma variants_of_files_variant_ok (l : list json) (acc vs : list Variant.t) :
  Forall variant_ok acc ->
  variants_of_files l acc = Ok vs -> Forall variant_ok vs.
Proof.
  revert acc. induction l as [|file_info l IH]; intros acc Hacc H.
  - by injection H as <-.
  - apply variants_of_files_step in H as (_ & w & st & Hw & Hst & H).
    eapply IH; [|exact H].
    destruct (has_url file_info) eqn:Hu; [|done].
    apply Forall_app. split; [done|]. constructor; [|constructor].
    apply parse_weight_values in Hw. apply parse_style_values in Hst.
    destruct (files_of_ok _ Hu) as [Hne Hdom].
    unfold variant_ok. cbn.
    repeat split; try done; try tauto;
      set_unfold in Hw; destruct_or!; subst; done || lia.
Qed.

End FileLoop.

(** ** The variant list *)

Section VariantList.
Context {py : PyRuntime}.

(** The two branches of [_extract_variants]. *)
Lemma extract_variants_inv (d : gmap string json) (vs : list Variant.t) :
  _extract_variants (JDict d) = Ok vs ->
  (truthy (default (JList []) (d !! "font_files")) = false /\
   exists s all,
     default (JStr "") (d !! "family_name") = JStr s /\
     variants_of_patterns (JDict d) (JStr s) variant_patterns [] = Ok all /\
     vs = take 5 all) \/
  (exists f l all,
     d !! "font_files" = Some (JList (f :: l)) /\
     variants_of_files (f :: l) [] = Ok all /\ vs = take 5 all).
Proof.
  unfold _extract_variants. cbn [get mbind result_bind].
  destruct (truthy (default (JList []) (d !! "font_files"))) eqn:Ht.
  - intros (all & Hall & [= <-])%bind_Ok. right.
    apply bind_Ok in Hall as (l & Hl & Hall).
    destruct (d !! "font_files") as [[| | | |s|l'|m]|] eqn:Hff;
      cbn in Hl, Ht; try discriminate.
    + injection Hl as <-. destruct s as [|c s]; [discriminate Ht|].
      simpl in Hall. discriminate Hall.
    + injection Hl as <-. destruct l' as [|f l']; [discriminate Ht|].
      by exists f, l', all.
    + injection Hl as <-.
      destruct (map_to_list m) as [|[k v] t] eqn:Hm.
      * apply map_to_list_empty_iff in Hm as ->. discriminate Ht.
      * simpl in Hall. discriminate Hall.
  - intros (all & Hall & [= <-])%bind_Ok. left. split; [done|].
    destruct (default (JStr "") (d !! "family_name")) as [| | | |s| |] eqn:Hs;
      try discriminate Hall.
    by exists s, all.
Qed.

Lemma variants_of_patterns_table (d : gmap string json) (s : string) :
  variants_of_patterns (JDict d) (JStr s) variant_patterns [] =
  let url := "https://www.fontsquirrel.com/fonts/download/" +:+
             format (default (JStr (replace " " "-" (lower s)))
                       (d !! "family_urlname")) +:+ "/" in
  Ok ((fun p : string * Z * string =>
         Variant.mk (JStr (s +:+ " " +:+ p.1.1)) p.1.2 p.2 ["latin"]
           (<["ttf" := JStr (url +:+ replace " " "-" (lower p.1.1))]> ∅))
        <$> variant_patterns).
Proof.
  unfold variant_patterns.
  cbn [variants_of_patterns str_lower get mbind result_bind fmap list_fmap
       app fst snd format].
  by rewrite <- !append_assoc.
Qed.

End VariantList.

Section VariantProperties.
Context {py : PyRuntime}.

Lemma fallback_variant_ok (name : json) (w : Z) (st : string) (url : json) :
  100 <= w <= 900 -> w mod 100 = 0 -> st = "normal" \/ st = "italic" ->
  variant_ok (Variant.mk name w st ["latin"] (<["ttf" := url]> ∅)).
Proof.
  intros Hw Hm Hst. unfold variant_ok. cbn.
  split; [done|]. split; [done|]. split; [done|]. split; [done|].
  split; [apply insert_non_empty|].
  rewrite dom_insert_L, dom_empty_L. set_solver.
Qed.

Lemma extract_variants_variant_ok (d : gmap string json)
    (vs : list Variant.t) :
  _extract_variants (JDict d) = Ok vs -> Forall variant_ok vs.
Proof.
  intros [(_ & s & all & _ & Hall & ->) | (f & l & all & _ & Hall & ->)]
    %extract_variants_inv.
  - rewrite variants_of_patterns_table in Hall. injection Hall as <-.
    unfold variant_patterns. cbn [fmap list_fmap take fst snd].
    repeat constructor; apply fallback_variant_ok; auto; lia.
  - apply Forall_take. by eapply variants_of_files_variant_ok.
Qed.

(** X2: every variant that [_extract_variants] returns, and so every variant
    of an entry, has a weight that is a multiple of 100 between 100 and 900,
    the style "normal" or "italic", the subsets ["latin"], and a dict of
    files that is not empty and has no other key than "ttf" and "otf". *)
Theorem variants_well_formed (d : gmap string json) (entry : FontEntry.t) :
  transform_font (JDict d) = Ok (Some entry) ->
  _extract_variants (JDict d) = Ok (FontEntry.variants entry) /\
  Forall variant_ok (FontEntry.variants entry).
Proof.
  intros [Hv _]%transform_font_parts. split; [done|].
  by eapply extract_variants_variant_ok.
Qed.

(** X3: when a record lists font files, its variants are made from the first
    five entries that have a URL, in their order, named by the entries'
    [name] ("Regular" when absent); entries without [ttf_url] and [otf_url]
    are passed over, and the table of patterns is not used, so a record whose
    entries all lack a URL gets no variant. *)
Theorem listed_files_variants (d : gmap string json) (f : json)
    (l : list json) (vs : list Variant.t) :
  d !! "font_files" = Some (JList (f :: l)) ->
  _extract_variants (JDict d) = Ok vs ->
  Forall file_entry_ok (f :: l) /\
  Variant.name <$> vs = take 5 (file_name <$> List.filter has_url (f :: l)) /\
  (List.filter has_url (f :: l) = [] -> vs = []).
Proof.
  intros Hff [(Ht & _) | (f' & l' & all & Hff' & Hall & ->)]%extract_variants_inv.
  { rewrite Hff in Ht. discriminate Ht. }
  rewrite Hff in Hff'. injection Hff' as <- <-.
  pose proof (variants_of_files_names _ _ _ Hall) as Hnames.
  cbn [fmap list_fmap app] in Hnames.
  split; [by eapply variants_of_files_entries|].
  split; [by rewrite fmap_take, Hnames|].
  intros Hnone. rewrite Hnone in Hnames.
  apply fmap_nil_inv in Hnames as ->. done.
Qed.

(** X4: when a record lists no font file ([font_files] absent, empty or
    otherwise false) and its family name is the string [s], the variants are
    the first five rows of the table of patterns: "s Regular" 400 normal,
    "s Bold" 700 normal, "s Italic" 400 italic, "s Bold Italic" 700 italic
    and "s Light" 300 normal, each with one ttf URL; the rows Medium,
    Semi Bold, Extra Bold and Black are not reached. *)
Theorem fallback_variants (d : gmap string json) (s : string) :
  truthy (default (JList []) (d !! "font_files")) = false ->
  d !! "family_name" = Some (JStr s) ->
  exists vs,
    _extract_variants (JDict d) = Ok vs /\
    (fun v => (Variant.name v, Variant.weight v, Variant.style v)) <$> vs
    = [ (JStr (s +:+ " Regular"), 400, "normal");
        (JStr (s +:+ " Bold"), 700, "normal");
        (JStr (s +:+ " Italic"), 400, "italic");
        (JStr (s +:+ " Bold Italic"), 700, "italic");
        (JStr (s +:+ " Light"), 300, "normal") ] /\
    let url := "https://www.fontsquirrel.com/fonts/download/" +:+
               format (default (JStr (replace " " "-" (lower s)))
                         (d !! "family_urlname")) +:+ "/" in
    (fun v => Variant.files v) <$> vs
    = (fun slug => <["ttf" := JStr (url +:+ slug)]> ∅)
        <$> ["regular"; "bold"; "italic"; "bold-italic"; "light"].
Proof.
  intros Hff Hs. eexists. split.
  - unfold _extract_variants. cbn [get mbind result_bind].
    rewrite Hff, Hs. cbn [default from_option id].
    rewrite variants_of_patterns_table. reflexivity.
  - split; reflexivity.
Qed.

End VariantProperties.

Lemma variants_well_formed_witness :
  exists entry,
    transform_font (py := sample_runtime) (JDict twenty_files)
      = Ok (Some entry) /\
    Forall variant_ok (FontEntry.variants entry).
Proof.
  destruct (transform_font (py := sample_runtime) (JDict twenty_files))
    as [[entry|]|] eqn:He; [|vm_compute in He; discriminate He..].
  exists entry. split; [done|].
  apply (variants_well_formed (py := sample_runtime) twenty_files entry He).
Defined.

(** ** Which records are kept *)

Lemma calculate_popularity_inv (d : gmap string json) (p : Z) :
  _calculate_popularity (JDict d) = Ok p ->
  50 <= p <= 100 /\
  exists n, len (default (JList []) (d !! "font_files")) = Ok n.
Proof.
  unfold _calculate_popularity. cbn [get get1 mbind result_bind].
  destruct (len (default (JList []) (d !! "font_files"))) as [n|] eqn:Hn.
  2: { by destruct (truthy (default JNull (d !! "description"))). }
  cbn [mbind result_bind].
  destruct (truthy (default (JBool false) (d !! "is_free")));
    destruct (truthy (default JNull (d !! "description")));
    destruct (truthy (default JNull (d !! "short_description")));
    destruct (truthy (default JNull (d !! "designer")));
    destruct (truthy (default JNull (d !! "foundry")));
    cbn [mbind result_bind];
    destruct (Z.ltb_spec 1 n); intros [= <-]; (split; [lia | eauto]).
Qed.

Lemma calculate_popularity_defined (d : gmap string json) (n : Z) :
  len (default (JList []) (d !! "font_files")) = Ok n ->
  exists p, _calculate_popularity (JDict d) = Ok p.
Proof.
  intros Hn. unfold _calculate_popularity. cbn [get get1 mbind result_bind].
  rewrite Hn.
  destruct (truthy (default JNull (d !! "description")));
    cbn [mbind result_bind]; eauto.
Qed.

Section Kept.
Context {py : PyRuntime}.

Lemma helpers_font_files_ok (d : gmap string json) (vs : list Variant.t)
    (p : Z) :
  _extract_variants (JDict d) = Ok vs ->
  _calculate_popularity (JDict d) = Ok p ->
  font_files_ok d.
Proof.
  intros Hv [_ [n Hn]]%calculate_popularity_inv. unfold font_files_ok.
  apply extract_variants_inv in Hv
    as [(Ht & _) | (f & l & all & -> & Hall & _)].
  - destruct (d !! "font_files") as [[| | | |s|l|m]|]; cbn in Hn, Ht;
      try done.
    + by destruct s.
    + by destruct l.
    + apply map_size_empty_iff. by destruct (size m).
  - by eapply variants_of_files_entries.
Qed.

Lemma font_files_ok_helpers (d : gmap string json) (s : string) :
  d !! "family_name" = Some (JStr s) ->
  font_files_ok d ->
  (exists vs, _extract_variants (JDict d) = Ok vs) /\
  (exists p, _calculate_popularity (JDict d) = Ok p).
Proof.
  intros Hs Hok. unfold font_files_ok in Hok.
  assert (truthy (default (JList []) (d !! "font_files")) = false ->
          exists vs, _extract_variants (JDict d) = Ok vs) as Hfallback.
  { intros Ht. unfold _extract_variants. cbn [get mbind result_bind].
    rewrite Ht, Hs. cbn [default from_option id].
    rewrite variants_of_patterns_table. cbn [mbind result_bind]. eauto. }
  destruct (d !! "font_files") as [[| | | |t|l|m]|] eqn:Hff; try done.
  - subst t. split; [by apply Hfallback|].
    apply (calculate_popularity_defined d 0). by rewrite Hff.
  - split.
    + destruct l as [|f l]; [by apply Hfallback|].
      destruct (variants_of_files_ok _ Hok []) as [all Hall].
      unfold _extract_variants. cbn [get mbind result_bind]. rewrite Hff.
      cbn -[variants_of_files]. rewrite Hall. cbn [mbind result_bind]. eauto.
    + apply (calculate_popularity_defined d (Z.of_nat (length l))).
      by rewrite Hff.
  - subst m. split; [by apply Hfallback|].
    apply (calculate_popularity_defined d 0). by rewrite Hff.
  - split; [by apply Hfallback|].
    apply (calculate_popularity_defined d 0). by rewrite Hff.
Qed.

Lemma record_ok_kept (d : gmap string json) :
  record_ok d -> exists entry, transform_font (JDict d) = Ok (Some entry).
Proof.
  intros ((s & Hs & Hne) & Hl & Hc & Hff).
  destruct (font_files_ok_helpers d s Hs Hff) as [[vs Hvs] [p Hp]].
  assert (exists m, default (JDict ∅) (d !! "license") = JDict m) as [m Hm].
  { destruct Hl as [-> | [m ->]]; eauto. }
  assert (exists c, default (JDict ∅) (d !! "classification") = JDict c /\
            (c !! "name" = None \/ exists n, c !! "name" = Some (JStr n)))
    as (c & Hcd & Hn).
  { destruct Hc as [-> | (c & -> & Hn)]; [|eauto].
    exists ∅. split; [done|]. left. apply lookup_empty. }
  unfold transform_font, transform_body, _extract_unicode_ranges,
    _extract_languages.
  cbn [get get1 getitem mbind result_bind]. rewrite Hs, Hm, Hcd, Hvs, Hp.
  cbn [default from_option id truthy font_id str_lower get get1 getitem
       mbind result_bind].
  destruct (String.eqb_spec s "") as [|_]; [done|]. cbn [negb].
  destruct Hn as [-> | [n ->]];
    cbn [default from_option id truthy str_lower mbind result_bind];
    try destruct (String.eqb n ""); cbn [negb mbind result_bind];
    (destruct (truthy (default (JStr "") (d !! "description")));
     cbn [negb];
     [|destruct (truthy (default JNull (d !! "short_description"))) eqn:Hsh;
       [destruct (d !! "short_description"); [|discriminate Hsh]|]]);
    cbn [mbind result_bind];
    repeat match goal with
    | |- context [if ?b then Ok _ else Ok _] => destruct b
    end; cbn [mbind result_bind]; eauto.
Qed.

(** X5: [transform_font] keeps a record (returns an entry for it) exactly
    when its [family_name] is a non-empty string, [license] and
    [classification] are absent or objects, the name of the classification
    is absent or a string, and [font_files] is absent, a list of objects
    whose [name] is absent or a string, or an empty string or object.  For
    every other object it returns [None], or the body raised and the print of
    the warning raised in turn, and that exception leaves [transform_font];
    where the print of the warning goes through, every other object is
    dropped with [None]. *)
Theorem transform_font_keeps_iff (d : gmap string json) :
  (record_ok d <-> exists entry, transform_font (JDict d) = Ok (Some entry)) /\
  (~ record_ok d <->
   transform_font (JDict d) = Ok None \/
   exists e e',
     transform_body (JDict d) = Raise e /\
     print_warning (default (JStr "unknown") (d !! "family_name")) e
     = Raise e' /\
     transform_font (JDict d) = Raise e') /\
  ((forall e,
      print_warning (default (JStr "unknown") (d !! "family_name")) e = Ok tt) ->
   (~ record_ok d <-> transform_font (JDict d) = Ok None)).
Proof.
  assert (record_ok d <->
          exists entry, transform_font (JDict d) = Ok (Some entry)) as Hiff.
  { split; [apply record_ok_kept|]. intros [entry He].
    destruct (transform_font_inv _ _ He)
      as (s & m & c & vs & p & Hs & Hne & Hm & Hc & Hn & Hvs & Hp & _).
    split; [eauto|]. split; [|split].
    - destruct (d !! "license") as [v|]; [right | by left].
      cbn in Hm. subst v. eauto.
    - destruct (d !! "classification") as [v|]; [right | by left].
      cbn in Hc. subst v. eauto.
    - by eapply helpers_font_files_ok. }
  split; [exact Hiff|]. rewrite Hiff, transform_font_handler.
  destruct (transform_body (JDict d)) as [[entry|]|e].
  - split; [split|intros Hp; split].
    + intros H. destruct H. eauto.
    + intros [H | (e & e' & H & _)]; discriminate H.
    + intros H. destruct H. eauto.
    + intros H. discriminate H.
  - split; [split|intros Hp; split]; try (by left); try done.
    + intros _ [entry He]. discriminate He.
    + intros _ [entry He]. discriminate He.
  - split.
    + destruct (print_warning _ e) as [[]|e'] eqn:Hw.
      * split; [by left | intros _ [entry He]; discriminate He].
      * split; [right; by exists e, e' | intros _ [entry He]; discriminate He].
    + intros Hp. rewrite Hp.
      split; [done | intros _ [entry He]; discriminate He].
Qed.

End Kept.

(** ** The fields of an entry *)

Lemma prefix_char (c x : ascii) (s : string) :
  c <> x -> String.prefix (String c "") (String x s) = false.
Proof.
  intros Hne. destruct (String.prefix _ _) eqn:Hp; [|done].
  apply prefix_spec in Hp as [q Hq]. rewrite append_cons in Hq.
  injection Hq as -> _. done.
Qed.

Lemma contains_space_replace (s : string) :
  contains " " (replace " " "-" s) = false.
Proof.
  induction s as [|c s IH]; [reflexivity|]. cbn [replace].
  destruct (Ascii.eqb_spec c " ") as [->|Hc].
  - change (contains " " (String "-" (replace " " "-" s)) = false).
    cbn [contains]. by rewrite IH, prefix_char.
  - cbn [contains]. rewrite IH, prefix_char; [done|]. congruence.
Qed.

Section Fields.
Context {py : PyRuntime}.

(** X6: the category list of an entry is empty when the classification has no
    name or the name "Other", and holds the name alone otherwise (the empty
    string included); the classification of a kept record is an object whose
    name is absent or a string. *)
Theorem entry_categories (d : gmap string json) (entry : FontEntry.t) :
  transform_font (JDict d) = Ok (Some entry) ->
  exists c : gmap string json,
    default (JDict ∅) (d !! "classification") = JDict c /\
    (c !! "name" = None \/ exists n, c !! "name" = Some (JStr n)) /\
    FontEntry.categories entry =
      match c !! "name" with
      | Some (JStr n) => if String.eqb n "Other" then [] else [JStr n]
      | _ => []
      end /\
    (length (FontEntry.categories entry) <= 1)%nat.
Proof.
  intros (s & m & c & vs & p & _ & _ & _ & Hc & Hn & _ & _ & ->)
    %transform_font_inv.
  exists c. split; [done|]. split; [done|]. cbn [FontEntry.categories].
  split; [done|].
  destruct (c !! "name") as [[| | | |n| |]|]; cbn; try lia.
  destruct (String.eqb n "Other"); cbn; lia.
Qed.

(** X7: the tags of an entry are the classification name, when it is not
    empty, in lower case with spaces turned into hyphens, followed by "free"
    when [is_free] is true and by "commercial" otherwise; so there are one or
    two tags, the last one is "free" or "commercial", and no tag contains a
    space. *)
Theorem entry_tags (d : gmap string json) (entry : FontEntry.t) :
  transform_font (JDict d) = Ok (Some entry) ->
  exists c : gmap string json,
    default (JDict ∅) (d !! "classification") = JDict c /\
    FontEntry.tags entry =
      match c !! "name" with
      | Some (JStr n) =>
          if String.eqb n "" then [] else [replace " " "-" (lower n)]
      | _ => []
      end ++
      [if truthy (default (JBool false) (d !! "is_free"))
       then "free" else "commercial"] /\
    (1 <= length (FontEntry.tags entry) <= 2)%nat /\
    Forall (fun tag => contains " " tag = false) (FontEntry.tags entry).
Proof.
  intros (s & m & c & vs & p & _ & _ & _ & Hc & Hn & _ & _ & ->)
    %transform_font_inv.
  exists c. split; [done|]. cbn [FontEntry.tags]. split; [done|].
  assert (contains " "
            (if truthy (default (JBool false) (d !! "is_free"))
             then "free" else "commercial") = false) as Hlast.
  { by destruct (truthy _). }
  destruct (c !! "name") as [[| | | |n| |]|];
    try destruct (String.eqb n ""); cbn [app length];
    (split; [lia|]); repeat constructor; try done.
  apply contains_space_replace.
Qed.

(** X8: the description of an entry is the record's [description] when that
    is true, else its [short_description] when that is true, else the
    [description] as it is: the empty string when absent, a false value such
    as [null] unchanged. *)
Theorem entry_description (d : gmap string json) (entry : FontEntry.t) :
  transform_font (JDict d) = Ok (Some entry) ->
  let description := default (JStr "") (d !! "description") in
  let short := default JNull (d !! "short_description") in
  FontEntry.description entry =
    (if truthy description then description
     else if truthy short then short else description) /\
  (d !! "description" = None -> d !! "short_description" = None ->
   FontEntry.description entry = JStr "").
Proof.
  intros (s & m & c & vs & p & _ & _ & _ & _ & _ & _ & _ & ->)
    %transform_font_inv.
  cbn [FontEntry.description]. split; [done|]. by intros -> ->.
Qed.

(** X9: name and family of an entry are the record's [family_name]; source
    and metadata URL end in the same slug, which is the record's
    [family_urlname] when the key is present (whatever its value) and
    otherwise the family name in lower case with spaces turned into hyphens
    (underscores are kept, unlike in the key). *)
Theorem entry_urls (d : gmap string json) (entry : FontEntry.t) :
  transform_font (JDict d) = Ok (Some entry) ->
  exists s,
    d !! "family_name" = Some (JStr s) /\
    FontEntry.name entry = JStr s /\ FontEntry.family entry = JStr s /\
    let slug :=
      match d !! "family_urlname" with
      | Some v => format v
      | None => replace " " "-" (lower s)
      end in
    FontEntry.source_url entry
      = "https://www.fontsquirrel.com/fonts/" +:+ slug /\
    FontEntry.metadata_url entry
      = "https://www.fontsquirrel.com/api/familyinfo/" +:+ slug.
Proof.
  intros (s & m & c & vs & p & Hs & _ & _ & _ & _ & _ & _ & ->)
    %transform_font_inv.
  exists s. split; [done|]. cbn. by destruct (d !! "family_urlname").
Qed.

(** X10: the optional fields of an entry: [license] and [license_url] are the
    [name] and [url] of the license object, "Unknown" and "" when the object
    or the key is absent; [version], [designer] and [foundry] are the
    record's values, "1.0", "" and "" when absent; a value that is present is
    passed on as it is, [null] included. *)
Theorem entry_optional_fields (d : gmap string json) (entry : FontEntry.t) :
  transform_font (JDict d) = Ok (Some entry) ->
  exists m : gmap string json,
    default (JDict ∅) (d !! "license") = JDict m /\
    FontEntry.license entry = default (JStr "Unknown") (m !! "name") /\
    FontEntry.license_url entry = default (JStr "") (m !! "url") /\
    FontEntry.version entry = default (JStr "1.0") (d !! "version") /\
    FontEntry.designer entry = default (JStr "") (d !! "designer") /\
    FontEntry.foundry entry = default (JStr "") (d !! "foundry") /\
    (d !! "license" = None ->
     FontEntry.license entry = JStr "Unknown" /\
     FontEntry.license_url entry = JStr "").
Proof.
  intros (s & m & c & vs & p & _ & _ & Hm & _ & _ & _ & _ & ->)
    %transform_font_inv.
  exists m. cbn. repeat (split; [done|]).
  intros Hl. rewrite Hl in Hm. injection Hm as <-. by rewrite !lookup_empty.
Qed.

(** X11: the unicode ranges and the languages of an entry go together: both
    lists have their extended item ("U+0100-017F", "Latin Extended") exactly
    when the classification name contains "latin", "sans" or "serif" in any
    letter case, and only their basic item otherwise. *)
Theorem entry_ranges_and_languages (d : gmap string json)
    (entry : FontEntry.t) :
  transform_font (JDict d) = Ok (Some entry) ->
  exists c : gmap string json,
    default (JDict ∅) (d !! "classification") = JDict c /\
    FontEntry.unicode_ranges entry =
      (if extended c then ["U+0000-00FF"; "U+0100-017F"] else ["U+0000-00FF"]) /\
    FontEntry.languages entry =
      (if extended c then ["Latin"; "Latin Extended"] else ["Latin"]) /\
    (c !! "name" = None -> extended c = false).
Proof.
  intros (s & m & c & vs & p & _ & _ & _ & Hc & _ & _ & _ & ->)
    %transform_font_inv.
  exists c. cbn. repeat (split; [done|]).
  intros Hn. unfold extended. by rewrite Hn.
Qed.

End Fields.

(** ** The output document *)

Lemma contains_char_cons (c x : ascii) (s : string) :
  contains (String c "") (String x s)
  = Ascii.eqb c x || contains (String c "") s.
Proof.
  cbn [contains]. f_equal.
  destruct (Ascii.eqb_spec c x) as [->|Hne]; [|by apply prefix_char].
  apply prefix_spec. by exists s.
Qed.

(** A character that was replaced is gone. *)
Lemma contains_replaced (c : ascii) (s : string) :
  c <> "-"%char -> contains (String c "") (replace c "-" s) = false.
Proof.
  intros Hc. induction s as [|x s IH]; [reflexivity|]. cbn [replace].
  destruct (Ascii.eqb_spec x c) as [->|Hx].
  - change (contains (String c "") (String "-" (replace c "-" s)) = false).
    rewrite contains_char_cons, IH.
    by destruct (Ascii.eqb_spec c "-").
  - rewrite contains_char_cons, IH.
    destruct (Ascii.eqb_spec c x); [congruence | done].
Qed.

(** Replacing another character by a hyphen brings no [c] in. *)
Lemma contains_replace_other (c old : ascii) (s : string) :
  c <> "-"%char ->
  contains (String c "") s = false ->
  contains (String c "") (replace old "-" s) = false.
Proof.
  intros Hc. induction s as [|x s IH]; [done|].
  rewrite contains_char_cons. intros [Hx Hs]%orb_false_iff. cbn [replace].
  destruct (Ascii.eqb x old).
  - change (contains (String c "") (String "-" (replace old "-" s)) = false).
    rewrite contains_char_cons, IH by done.
    by destruct (Ascii.eqb_spec c "-").
  - by rewrite contains_char_cons, Hx, IH.
Qed.

Lemma ascii_normal_form_cons (c : ascii) (s : string) :
  ascii_normal_form (String c s)
  = ascii_normal_form (String c "") +:+ ascii_normal_form s.
Proof. destruct c as [[] [] [] [] [] [] [] []]; reflexivity. Qed.

Lemma plain_char_ascii_normal_form (c : ascii) :
  plain (ascii_normal_form (String c "")) = true.
Proof. destruct c as [[] [] [] [] [] [] [] []]; reflexivity. Qed.

Lemma plain_append (a b : string) : plain (a +:+ b) = plain a && plain b.
Proof.
  induction a as [|c a IH]; [reflexivity|].
  rewrite append_cons. cbn [plain]. by rewrite IH, andb_assoc.
Qed.

Lemma plain_ascii_normal_form (s : string) : plain (ascii_normal_form s) = true.
Proof.
  induction s as [|c s IH]; [reflexivity|].
  by rewrite ascii_normal_form_cons, plain_append,
    plain_char_ascii_normal_form, IH.
Qed.

Lemma is_ascii_append (a b : string) :
  is_ascii (a +:+ b) = is_ascii a && is_ascii b.
Proof.
  induction a as [|c a IH]; [reflexivity|].
  rewrite append_cons. cbn [is_ascii]. by rewrite IH, andb_assoc.
Qed.

Lemma is_ascii_char_normal_form (c : ascii) :
  is_ascii (ascii_normal_form (String c "")) = is_ascii_char c.
Proof. destruct c as [[] [] [] [] [] [] [] []]; reflexivity. Qed.

(** The normal form of an ASCII name is an ASCII name. *)
Lemma is_ascii_normal_form (s : string) :
  is_ascii (ascii_normal_form s) = is_ascii s.
Proof.
  induction s as [|c s IH]; [reflexivity|].
  rewrite ascii_normal_form_cons, is_ascii_append, is_ascii_char_normal_form, IH.
  reflexivity.
Qed.

Section NormalForm.
Context {py : PyRuntime}.

(** Whatever [lower] does to the letters, no space and no underscore is left
    in a normal form. *)
Lemma normal_form_no_space (s : string) : contains " " (normal_form s) = false.
Proof.
  unfold normal_form.
  apply contains_replace_other; [discriminate | apply contains_space_replace].
Qed.

Lemma normal_form_no_underscore (s : string) :
  contains "_" (normal_form s) = false.
Proof. unfold normal_form. apply contains_replaced. discriminate. Qed.

Lemma plain_normal_form (s : string) :
  is_ascii s = true -> plain (normal_form s) = true.
Proof.
  intros Hs. rewrite normal_form_ascii by done. apply plain_ascii_normal_form.
Qed.

End NormalForm.

Lemma length_omap_le {A B : Type} (f : A -> option B) (l : list A) :
  (length (omap f l) <= length l)%nat.
Proof.
  induction l as [|x l IH]; [done|]. cbn [omap list_omap].
  destruct (f x); cbn [length]; lia.
Qed.

Section Document.
Context {py : PyRuntime}.

(** Where an entry of the document comes from. *)
Lemma document_entry_source (raw_fonts : list json) (now : datetime)
    (key : string) (entry : FontEntry.t) :
  SourceDocument.fonts (translate (Fetched raw_fonts) now) !! key
    = Some entry ->
  exists (d : gmap string json) (s : string),
    JDict d ∈ raw_fonts /\ d !! "family_name" = Some (JStr s) /\ s <> "" /\
    transform_font (JDict d) = Ok (Some entry) /\
    key = "squirrel." +:+ normal_form s.
Proof.
  rewrite translate_fonts.
  intros [Hin | Hempty]%insert_all_lookup; [|by rewrite lookup_empty in Hempty].
  apply list_elem_of_omap in Hin as (fd & Hfd & Hk).
  apply keyed_Some in Hk as (d & s & -> & Hs & Hne & Hd & Hkey).
  rewrite font_id_str in Hkey. injection Hkey as <-. by exists d, s.
Qed.

(** X12: every entry of an output document is filed under the key of its own
    name: the key is "squirrel." followed by the name in lower case with
    spaces and underscores turned into hyphens, so no key holds a space or an
    underscore after the source tag, and the key of an ASCII name holds no
    upper-case letter either. *)
Theorem document_keys (raw_fonts : list json) (now : datetime)
    (key : string) (entry : FontEntry.t) :
  SourceDocument.fonts (translate (Fetched raw_fonts) now) !! key
    = Some entry ->
  exists s,
    FontEntry.name entry = JStr s /\ s <> "" /\
    font_id (FontEntry.name entry) = Ok key /\
    key = "squirrel." +:+ normal_form s /\
    contains " " (normal_form s) = false /\
    contains "_" (normal_form s) = false /\
    (is_ascii s = true -> plain (normal_form s) = true).
Proof.
  intros (d & s & _ & Hs & Hne & Ht & ->)%document_entry_source.
  destruct (transform_font_inv _ _ Ht)
    as (s' & m & c & vs & p & Hs' & _ & _ & _ & _ & _ & _ & ->).
  rewrite Hs in Hs'. injection Hs' as <-. exists s. cbn [FontEntry.name].
  split; [done|]. split; [done|]. split; [apply font_id_str|].
  split; [done|]. split; [apply normal_form_no_space|].
  split; [apply normal_form_no_underscore | apply plain_normal_form].
Qed.

(** X13: every entry of an output document has a popularity between 50 and
    100 and at most five variants, each of them well formed. *)
Theorem document_entries_bounded (raw_fonts : list json) (now : datetime)
    (key : string) (entry : FontEntry.t) :
  SourceDocument.fonts (translate (Fetched raw_fonts) now) !! key
    = Some entry ->
  50 <= FontEntry.popularity entry <= 100 /\
  (length (FontEntry.variants entry) <= 5)%nat /\
  Forall variant_ok (FontEntry.variants entry).
Proof.
  intros (d & s & _ & _ & _ & Ht & _)%document_entry_source.
  destruct (transform_font_parts _ _ Ht) as [Hv Hp].
  split; [by apply calculate_popularity_inv in Hp as [Hp _]|].
  split; [|by eapply extract_variants_variant_ok].
  apply extract_variants_inv in Hv
    as [(_ & _ & all & _ & _ & ->) | (_ & _ & all & _ & _ & ->)];
    rewrite length_take; lia.
Qed.

(** X14: the loop of [translate] counts every record once: [processed] and
    [skipped] add up to the number of fetched records, [processed] is the
    number of records transformed, and neither is negative. *)
Theorem loop_counts_every_record (raw_fonts : list json) :
  let st := translate_loop raw_fonts in
  processed st + skipped st = Z.of_nat (length raw_fonts) /\
  processed st = Z.of_nat (length (successes raw_fonts)) /\
  0 <= processed st /\ 0 <= skipped st /\
  Z.of_nat (size (fonts st)) <= processed st.
Proof.
  cbn zeta. unfold translate_loop.
  destruct (translate_loop_from raw_fonts (mk_state ∅ 0 0))
    as (Hf & Hp & Hs).
  cbn [fonts processed skipped] in Hf, Hp, Hs. rewrite Hf, Hp, Hs.
  pose proof (length_omap_le keyed raw_fonts) as Hle.
  rewrite length_successes, length_fmap.
  assert (size (insert_all ∅ (omap keyed raw_fonts))
          <= length (omap keyed raw_fonts))%nat as Hsize.
  { rewrite <- (size_dom (insert_all _ _)), insert_all_dom, dom_empty_L,
      (left_id_L ∅ (∪)), <- (length_fmap fst).
    apply size_list_to_set_le. }
  lia.
Qed.

(** X15: a fetched item that is not an object (null, a number, a string, a
    list) makes [transform_font] itself raise, since its handler calls
    [font_data.get] again; the loop of [translate] catches this, counts the
    item as skipped and goes on with [fonts] and [processed] unchanged.  On
    an object [transform_font] raises only when its body raised and the print
    of the warning raised in turn; the loop then skips the record in the same
    way.  Where that print goes through, [transform_font] returns. *)
Theorem non_object_records (font_data : json) (st : loop_state) :
  ((forall d, font_data <> JDict d) ->
   transform_font font_data = Raise AttributeError /\
   translate_step st font_data
     = mk_state (fonts st) (processed st) (skipped st + 1)) /\
  (forall d e,
     font_data = JDict d -> transform_font font_data = Raise e ->
     (exists e',
        transform_body font_data = Raise e' /\
        print_warning (default (JStr "unknown") (d !! "family_name")) e'
        = Raise e) /\
     translate_step st font_data
       = mk_state (fonts st) (processed st) (skipped st + 1)) /\
  (forall d,
     font_data = JDict d ->
     (forall e,
        print_warning (default (JStr "unknown") (d !! "family_name")) e
        = Ok tt) ->
     exists r, transform_font font_data = Ok r).
Proof.
  split; [|split].
  - intros Hd.
    assert (transform_font font_data = Raise AttributeError) as Ht.
    { destruct font_data; try reflexivity. by destruct (Hd d). }
    split; [done|]. rewrite translate_step_keyed. unfold keyed. by rewrite Ht.
  - intros d e -> Ht. split.
    + revert Ht. rewrite transform_font_handler.
      destruct (transform_body (JDict d)) as [r|e']; [intros H; discriminate H|].
      destruct (print_warning _ e') as [u|e''] eqn:Hw;
        intros [= <-]. by exists e'.
    + rewrite translate_step_keyed. unfold keyed. by rewrite Ht.
  - intros d -> Hp. rewrite transform_font_handler.
    destruct (transform_body (JDict d)) as [r|e]; [by exists r|].
    rewrite Hp. by exists None.
Qed.

(** X16: a failed request and an empty response give the same result: the
    document with no entry and [total_fonts] 0, under the usual header;
    [main] then writes this document over the output file and exits with 0.
    [main] exits with 1 only when the write fails. *)
Theorem fetch_failure_empty_document (now : datetime) :
  translate RequestException now = translate (Fetched []) now /\
  translate RequestException now = _create_empty_source now /\
  SourceDocument.fonts (translate RequestException now) = ∅ /\
  SourceInfo.total_fonts
    (SourceDocument.source_info (translate RequestException now)) = 0 /\
  main RequestException now true
    = (0, Some (output_file, _create_empty_source now)) /\
  (forall r written, (main r now written).1 = if written then 0 else 1) /\
  (forall r, exists doc,
     main r now true = (0, Some (output_file, doc)) /\
     SourceInfo.total_fonts (SourceDocument.source_info doc)
     = Z.of_nat (size (SourceDocument.fonts doc))).
Proof.
  repeat split; try reflexivity.
  - intros r written. by destruct written.
  - intros r. eexists. split; [reflexivity|].
    destruct r as [raw|]; [apply translate_total_fonts | reflexivity].
Qed.

End Document.

Section Skipped.
Context {py : PyRuntime}.

(** The document in one formula, the empty response included. *)
Lemma translate_as_insert_all (raw_fonts : list json) (now : datetime) :
  translate (Fetched raw_fonts) now =
  let all := insert_all ∅ (omap keyed raw_fonts) in
  {| SourceDocument.source_info := header now (Z.of_nat (size all));
     SourceDocument.fonts := all |}.
Proof.
  pose proof (translate_fonts raw_fonts now) as Hf. revert Hf.
  unfold translate. cbn [fetch_fonts].
  destruct raw_fonts as [|fd raw]; [reflexivity|].
  cbn [SourceDocument.fonts]. by intros ->.
Qed.

(** X17: a record that is not transformed leaves no trace: the document is the
    one obtained without it, wherever the record stands in the response,
    also when it was the only one. *)
Theorem skipped_record_leaves_no_trace (raw1 raw2 : list json)
    (font_data : json) (now : datetime) :
  (forall entry, transform_font font_data <> Ok (Some entry)) ->
  translate (Fetched (raw1 ++ font_data :: raw2)) now
  = translate (Fetched (raw1 ++ raw2)) now.
Proof.
  intros Hskip. rewrite !translate_as_insert_all.
  assert (keyed font_data = None) as Hk.
  { destruct (keyed font_data) as [[key entry]|] eqn:Hk; [|done].
    apply keyed_iff in Hk as [Ht _]. by destruct (Hskip entry). }
  rewrite !omap_app. cbn [omap list_omap]. by rewrite Hk.
Qed.

End Skipped.

(** ** The further properties at concrete records *)

Lemma listed_files_variants_witness :
  exists vs,
    _extract_variants (py := sample_runtime) (JDict rich_record) = Ok vs /\
    Variant.name <$> vs = [JStr "Bold Italic"; JStr "Regular"].
Proof.
  destruct (_extract_variants (py := sample_runtime) (JDict rich_record))
    as [vs|] eqn:Hv; [|vm_compute in Hv; discriminate Hv].
  exists vs. split; [reflexivity|].
  edestruct (listed_files_variants (py := sample_runtime) rich_record _ _ vs
               eq_refl Hv) as (_ & Hnames & _).
  rewrite Hnames. vm_compute. reflexivity.
Defined.

Lemma fallback_variants_witness :
  exists vs,
    _extract_variants (py := sample_runtime) (JDict null_updated_at) = Ok vs /\
    (fun v => (Variant.name v, Variant.weight v, Variant.style v)) <$> vs
    = [ (JStr "Open Sans Regular", 400, "normal");
        (JStr "Open Sans Bold", 700, "normal");
        (JStr "Open Sans Italic", 400, "italic");
        (JStr "Open Sans Bold Italic", 700, "italic");
        (JStr "Open Sans Light", 300, "normal") ].
Proof.
  destruct (fallback_variants (py := sample_runtime) null_updated_at
              "Open Sans" eq_refl eq_refl) as (vs & Hv & Hn & _).
  exists vs. split; [exact Hv | exact Hn].
Defined.

Lemma transform_font_keeps_iff_witness :
  transform_font (py := sample_runtime) (JDict string_license) = Ok None.
Proof.
  destruct (transform_font_keeps_iff (py := sample_runtime) string_license)
    as (_ & _ & H).
  apply H; [intros e; reflexivity|].
  intros (_ & [Hl | [m Hl]] & _); vm_compute in Hl; discriminate Hl.
Defined.

Lemma entry_categories_witness :
  exists entry,
    transform_font (py := sample_runtime) (JDict rich_record)
      = Ok (Some entry) /\
    FontEntry.categories entry = [JStr "Sans Serif"].
Proof.
  evaluated_entry entry He.
  destruct (entry_categories (py := sample_runtime) rich_record entry He)
    as (c & Hc & _ & -> & _).
  vm_compute in Hc. injection Hc as <-. reflexivity.
Defined.

Lemma entry_tags_witness :
  exists entry,
    transform_font (py := sample_runtime) (JDict rich_record)
      = Ok (Some entry) /\
    FontEntry.tags entry = ["sans-serif"; "free"].
Proof.
  evaluated_entry entry He.
  destruct (entry_tags (py := sample_runtime) rich_record entry He)
    as (c & Hc & -> & _).
  vm_compute in Hc. injection Hc as <-. reflexivity.
Defined.

Lemma entry_description_witness :
  exists entry,
    transform_font (py := sample_runtime) (JDict rich_record)
      = Ok (Some entry) /\
    FontEntry.description entry = JStr "A humanist face".
Proof.
  evaluated_entry entry He.
  destruct (entry_description (py := sample_runtime) rich_record entry He)
    as [-> _].
  reflexivity.
Defined.

Lemma entry_urls_witness :
  exists entry,
    transform_font (py := sample_runtime) (JDict rich_record)
      = Ok (Some entry) /\
    FontEntry.source_url entry
      = "https://www.fontsquirrel.com/fonts/open-sans".
Proof.
  evaluated_entry entry He.
  destruct (entry_urls (py := sample_runtime) rich_record entry He)
    as (s & _ & _ & _ & -> & _).
  reflexivity.
Defined.

Lemma entry_optional_fields_witness :
  exists entry,
    transform_font (py := sample_runtime) (JDict rich_record)
      = Ok (Some entry) /\
    FontEntry.license entry = JStr "Apache License" /\
    FontEntry.version entry = JStr "1.0".
Proof.
  evaluated_entry entry He.
  destruct (entry_optional_fields (py := sample_runtime) rich_record entry He)
    as (m & Hm & -> & _ & -> & _).
  vm_compute in Hm. injection Hm as <-. split; reflexivity.
Defined.

Lemma entry_ranges_and_languages_witness :
  exists entry,
    transform_font (py := sample_runtime) (JDict rich_record)
      = Ok (Some entry) /\
    FontEntry.unicode_ranges entry = ["U+0000-00FF"; "U+0100-017F"] /\
    FontEntry.languages entry = ["Latin"; "Latin Extended"].
Proof.
  evaluated_entry entry He.
  destruct (entry_ranges_and_languages (py := sample_runtime)
              rich_record entry He) as (c & Hc & -> & -> & _).
  vm_compute in Hc. injection Hc as <-. split; reflexivity.
Defined.

Lemma document_keys_witness :
  exists entry,
    SourceDocument.fonts
      (translate (py := sample_runtime) (Fetched [JDict rich_record])
         sample_now) !! "squirrel.open-sans" = Some entry /\
    font_id (py := sample_runtime) (FontEntry.name entry)
    = Ok "squirrel.open-sans".
Proof.
  destruct (SourceDocument.fonts
              (translate (py := sample_runtime) (Fetched [JDict rich_record])
                 sample_now) !! "squirrel.open-sans")
    as [entry|] eqn:He; [|vm_compute in He; discriminate He].
  exists entry. split; [reflexivity|].
  destruct (document_keys (py := sample_runtime) [JDict rich_record]
              sample_now "squirrel.open-sans" entry He)
    as (s & _ & _ & Hid & _).
  exact Hid.
Defined.

Lemma document_entries_bounded_witness :
  exists entry,
    SourceDocument.fonts
      (translate (py := sample_runtime) (Fetched [JDict rich_record])
         sample_now) !! "squirrel.open-sans" = Some entry /\
    50 <= FontEntry.popularity entry <= 100.
Proof.
  destruct (SourceDocument.fonts
              (translate (py := sample_runtime) (Fetched [JDict rich_record])
                 sample_now) !! "squirrel.open-sans")
    as [entry|] eqn:He; [|vm_compute in He; discriminate He].
  exists entry. split; [reflexivity|].
  apply (document_entries_bounded (py := sample_runtime) [JDict rich_record]
           sample_now "squirrel.open-sans" entry He).
Defined.

Lemma non_object_records_witness :
  transform_font (py := sample_runtime) JNull = Raise AttributeError /\
  skipped (translate_step (py := sample_runtime) (mk_state ∅ 0 0) JNull) = 1.
Proof.
  destruct (non_object_records (py := sample_runtime) JNull (mk_state ∅ 0 0))
    as [H _].
  destruct (H ltac:(discriminate)) as [Ht Hstep].
  split; [exact Ht|]. rewrite Hstep. reflexivity.
Defined.

Lemma skipped_record_leaves_no_trace_witness :
  translate (py := sample_runtime)
    (Fetched ([open_sans] ++ JNull :: [test_font])) sample_now
  = translate (py := sample_runtime)
      (Fetched ([open_sans] ++ [test_font])) sample_now.
Proof.
  apply (skipped_record_leaves_no_trace (py := sample_runtime)).
  intros entry H. vm_compute in H. discriminate H.
Defined.

(** ** Two more facts on the helpers *)

Section Helpers.
Context {py : PyRuntime}.

(** X18: [_extract_unicode_ranges] and [_extract_languages] go together on
    every value.  On an object whose classification is absent or an object
    with a [name] that is absent or a string, both return, each list with its
    extended item or each without; on every other value (the record or its
    classification is not an object, or the classification name is present and
    not a string, [null] included) both raise [AttributeError]. *)
Theorem ranges_and_languages_together (font_data : json) :
  (forall c,
     classified font_data c ->
     _extract_unicode_ranges font_data
       = Ok ("U+0000-00FF" :: if extended c then ["U+0100-017F"] else []) /\
     _extract_languages font_data
       = Ok ("Latin" :: if extended c then ["Latin Extended"] else [])) /\
  ((forall c, ~ classified font_data c) ->
   _extract_unicode_ranges font_data = Raise AttributeError /\
   _extract_languages font_data = Raise AttributeError) /\
  ((exists c, classified font_data c) \/ (forall c, ~ classified font_data c)).
Proof.
  split; [|split].
  - intros c (d & -> & Hc & Hn).
    unfold _extract_unicode_ranges, _extract_languages, extended.
    cbn [get mbind result_bind]. rewrite Hc. cbn [get mbind result_bind].
    destruct Hn as [-> | [n ->]];
      cbn [default from_option id str_lower mbind result_bind]; [done|].
    by destruct (_ || _).
  - intros Hno.
    unfold _extract_unicode_ranges, _extract_languages.
    destruct font_data as [| | | | | |d]; cbn [get mbind result_bind];
      try done.
    destruct (default (JDict ∅) (d !! "classification"))
      as [| | | | | |c] eqn:Hc; cbn [get mbind result_bind]; try done.
    destruct (c !! "name") as [[| | | |n| |]|] eqn:Hn;
      cbn [default from_option id str_lower mbind result_bind]; try done.
    + destruct (Hno c). exists d. eauto.
    + destruct (Hno c). exists d. eauto.
  - destruct font_data as [| | | | | |d];
      try (right; intros c (d & Hd & _); discriminate Hd).
    destruct (default (JDict ∅) (d !! "classification"))
      as [| | | | | |c] eqn:Hc;
      try (right; intros c' (d' & [= <-] & Hc' & _); congruence).
    destruct (c !! "name") as [[| | | |n| |]|] eqn:Hn;
      try (right; intros c' (d' & [= <-] & Hc' & [Hn' | [n' Hn']]);
           congruence).
    + left. exists c, d. eauto.
    + left. exists c, d. eauto.
Qed.

(** X19: on an ASCII family name the key derivation is idempotent: the part
    of the key after the source tag is in normal form (no upper-case letter,
    space or underscore), and taken as a family name it gives the same key
    again. *)
Theorem font_id_idempotent (s : string) :
  is_ascii s = true ->
  plain (normal_form s) = true /\
  normal_form (normal_form s) = normal_form s /\
  font_id (JStr (normal_form s)) = font_id (JStr s).
Proof.
  intros Hs.
  pose proof (plain_normal_form s Hs) as Hp.
  assert (is_ascii (normal_form s) = true) as Ha.
  { by rewrite normal_form_ascii, is_ascii_normal_form. }
  pose proof (normal_form_plain _ Ha Hp) as Hn.
  split; [done|]. split; [done|]. by rewrite !font_id_str, Hn.
Qed.

End Helpers.

Lemma ranges_and_languages_together_witness :
  _extract_unicode_ranges (py := sample_runtime) (JDict rich_record)
  = Ok ["U+0000-00FF"; "U+0100-017F"] /\
  _extract_languages (py := sample_runtime) (JDict rich_record)
  = Ok ["Latin"; "Latin Extended"].
Proof.
  destruct (ranges_and_languages_together (py := sample_runtime)
              (JDict rich_record)) as (H & _).
  destruct (H {[ "name" := JStr "Sans Serif" ]}) as [Hr Hl].
  - exists rich_record. split; [reflexivity|]. split; [reflexivity|].
    right. by exists "Sans Serif".
  - split; [exact Hr | exact Hl].
Defined.

Lemma font_id_idempotent_witness :
  is_ascii "Open Sans" = true /\
  font_id (py := sample_runtime) (JStr (normal_form (py := sample_runtime) "Open Sans"))
  = font_id (py := sample_runtime) (JStr "Open Sans").
Proof.
  split; [reflexivity|].
  apply (font_id_idempotent (py := sample_runtime) "Open Sans"). reflexivity.
Defined.
